(** * n8ncloud Terraform provider: a shallow embedding and its properties

    The development follows the layout of the Go sources:

    - [internal/client/client.go]  : [Client], [NewClient], [doRequest];
    - [internal/client/types.go]   : [User], [CreateUserRequest], ...;
    - [internal/client/users.go]   : [GetUser], [GetUserByEmail], [CreateUser],
                                     [UpdateUserRole], [DeleteUser];
    - [internal/provider/provider.go]         : [N8nCloudProvider.Configure];
    - [internal/provider/user_data_source.go] : [UserDataSource.Read];
    - [internal/provider/user_resource.go]    : [UserResource.Create], [Read],
                                     [Update], [Delete], [ImportState].

    Everything the Go code obtains from outside the repository (the HTTP
    round trip, [encoding/json], [time.Time.Format], [net/http]'s request
    constructor) is gathered in the class [Platform]; all definitions and
    theorems are stated for an arbitrary platform. *)

From Stdlib Require Import ZArith String List Lia.
From stdpp Require Import base decidable option list strings gmap pretty.

Local Open Scope string_scope.
Local Open Scope Z_scope.
Local Open Scope list_scope.

(** ** Go values *)

(** A Go [error] is observed by this code only through its message
    ([%s] and [%w] verbs), so it is modelled by that message. *)
Definition error := string.

(** A Go result pair [(v, err)] with [err == nil] or [err != nil]. *)
Inductive result (A : Type) : Type :=
| Ok (v : A)
| Err (e : error).
Arguments Ok {A} v.
Arguments Err {A} e.

(** [int64] arithmetic wraps; [time.Duration] is an [int64] count of
    nanoseconds. *)
Definition wrap64 (z : Z) : Z := (z + 2 ^ 63) mod 2 ^ 64 - 2 ^ 63.
Definition Duration := Z.
Definition Second : Duration := 1000000000.
Definition mul64 (a b : Z) : Z := wrap64 (a * b).

(** [strings.Contains]-style search, used to phrase what a regular
    expression without metacharacters matches. *)
Fixpoint is_prefix (p s : string) : bool :=
  match p, s with
  | EmptyString, _ => true
  | String a p', String b s' => if Ascii.eqb a b then is_prefix p' s' else false
  | String _ _, EmptyString => false
  end.

Fixpoint contains (s sub : string) : bool :=
  if is_prefix sub s then true
  else match s with
       | EmptyString => false
       | String _ s' => contains s' sub
       end.

(** [%q] of a string without characters that need escaping. *)
Definition dquote : string := String (Ascii.ascii_of_nat 34) EmptyString.
Definition quote (s : string) : string := dquote +:+ s +:+ dquote.

(** ** terraform-plugin-framework values ([types.String], [types.Bool],
    [types.Int64]): null, unknown or known. *)
Module types.

Inductive String := StringNull | StringUnknown | StringValue (s : string).
Inductive Bool := BoolNull | BoolUnknown | BoolValue (b : bool).
Inductive Int64 := Int64Null | Int64Unknown | Int64Value (n : Z).

Definition IsNull (v : String) : bool :=
  match v with StringNull => true | _ => false end.
Definition IsUnknown (v : String) : bool :=
  match v with StringUnknown => true | _ => false end.
(** [ValueString] returns the empty string for null and unknown. *)
Definition ValueString (v : String) : string :=
  match v with StringValue s => s | _ => "" end.

Definition Int64_IsNull (v : Int64) : bool :=
  match v with Int64Null => true | _ => false end.
(** [ValueInt64] returns 0 for null and unknown. *)
Definition ValueInt64 (v : Int64) : Z :=
  match v with Int64Value n => n | _ => 0 end.

#[global] Instance String_eq_dec : EqDecision String.
Proof. solve_decision. Defined.
#[global] Instance Bool_eq_dec : EqDecision Bool.
Proof. solve_decision. Defined.

End types.

(** ** Diagnostics *)
Module diag.

Inductive Severity := SeverityError | SeverityWarning.

Record Diagnostic := {
  severity : Severity;
  summary : string;
  detail : string;
  attribute : option string   (* [path.Root(name)] of attribute errors *)
}.

#[global] Instance Severity_eq_dec : EqDecision Severity.
Proof. solve_decision. Defined.
#[global] Instance Diagnostic_eq_dec : EqDecision Diagnostic.
Proof. solve_decision. Defined.

Definition Diagnostics := list Diagnostic.

Definition is_error (d : Diagnostic) : bool :=
  match severity d with SeverityError => true | SeverityWarning => false end.

Definition HasError (ds : Diagnostics) : bool := existsb is_error ds.

(** [Diagnostics.Append] skips a diagnostic that is already present. *)
Definition Append1 (ds : Diagnostics) (d : Diagnostic) : Diagnostics :=
  if decide (d ∈ ds) then ds else (ds ++ [d])%list.

Definition Append (ds : Diagnostics) (new : Diagnostics) : Diagnostics :=
  fold_left Append1 new ds.

Definition NewErrorDiagnostic (s d : string) : Diagnostic :=
  {| severity := SeverityError; summary := s; detail := d; attribute := None |}.

Definition AddError (ds : Diagnostics) (s d : string) : Diagnostics :=
  Append1 ds (NewErrorDiagnostic s d).

Definition AddAttributeError (ds : Diagnostics) (p s d : string) : Diagnostics :=
  Append1 ds {| severity := SeverityError; summary := s; detail := d;
                attribute := Some p |}.

End diag.
Import diag.


(** ** Package [client] *)
Module client.

(** Types of the Go runtime that the data model mentions. *)
Class Host := {
  (** [context.Context] *)
  GoContext : Type;
  (** [time.Time] and [t.Format(time.RFC3339)] *)
  Time : Type;
  Format_RFC3339 : Time -> string
}.

(** *** [types.go] *)
Section Types.
Context `{Host}.

(** The data source reads [user.GlobalRole] (a pointer to a struct with a
    [Name]); its declaration is not in [types.go], the shape below is the
    one the use site needs. *)
Record GlobalRoleT := { Name : string }.

Record User := {
  ID : string;
  Email : string;
  FirstName : option string;        (* *string *)
  LastName : option string;         (* *string *)
  IsPending : bool;
  CreatedAt : Time;
  UpdatedAt : Time;
  Role : string;
  InviteAcceptUrl : string;
  GlobalRole : option GlobalRoleT   (* see above *)
}.

(** [Email], [Role], [FirstName] and [LastName] of the request struct;
    the prefix keeps them apart from the fields of [User]. *)
Record CreateUserRequest := {
  cr_Email : string;
  cr_Role : string;
  cr_FirstName : string;
  cr_LastName : string
}.

Record UpdateUserRoleRequest := { NewRoleName : string }.

(** [UserResponse] is used by [GetUser] and [CreateUser] through its
    field [Data]; the declaration is not in [types.go]. *)
Record UserResponse := { Data : User }.

Record ErrorResponse := {
  Code : string;
  Message : string;
  Hint : string
}.

(** The [body interface{}] argument of [doRequest]: the two request
    structs that callers pass. *)
Inductive Body :=
| BodyCreateUser (r : CreateUserRequest)
| BodyUpdateUserRole (r : UpdateUserRoleRequest).

(** *** [net/http] as seen by [doRequest] *)
Record Request := {
  req_ctx : GoContext;
  Method : string;
  URL : string;
  Header : list (string * string);
  ReqBody : option string
}.

(** Outcome of [httpClient.Do] followed by [io.ReadAll]. *)
Inductive RoundTrip :=
| DoError (e : error)
| ReadError (StatusCode : Z) (e : error)
| Response (StatusCode : Z) (respBody : string).

End Types.

(** What [client.go] and [users.go] call outside the repository. *)
Class Platform `{Host} := {
  (** [json.Marshal] of a request struct *)
  json_Marshal : Body -> result string;
  (** [json.Unmarshal] into [ErrorResponse] and [UserResponse] *)
  json_Unmarshal_ErrorResponse : string -> result ErrorResponse;
  json_Unmarshal_UserResponse : string -> result UserResponse;
  (** the error of [http.NewRequestWithContext method url], if any *)
  http_NewRequest_error : string -> string -> option error;
  (** the remote side: its state, and one round trip under a time-out *)
  Server : Type;
  http_Do : Duration -> Request -> Server -> RoundTrip * Server
}.

Section World.
Context `{Platform}.

(** The world a call runs in: the remote side and the requests handed
    to [httpClient.Do] so far (oldest first). *)
Record World := {
  server : Server;
  sent : list Request
}.

(** State passing over [World]. *)
Definition M (A : Type) : Type := World -> A * World.
Definition ret {A} (a : A) : M A := fun w => (a, w).
Definition bind {A B} (m : M A) (k : A -> M B) : M B :=
  fun w => let (a, w') := m w in k a w'.

End World.

Module GoNotations.
Declare Scope go_scope.
Delimit Scope go_scope with go.
Notation "'let!' x := m 'in' k" := (bind m (fun x => k))
  (at level 10, x name, m at level 100, k at level 200) : go_scope.
Open Scope go_scope.
End GoNotations.
Import GoNotations.

Section Client.
Context `{Platform}.

(** *** [client.go] *)
Definition defaultTimeout : Duration := mul64 30 Second.
Definition userAgent : string := "terraform-provider-n8ncloud".

(** [http.Client], of which the code sets the [Timeout]. *)
Record HttpClient := { http_Timeout : Duration }.

Record Client := {
  baseURL : string;
  apiKey : string;
  httpClient : HttpClient
}.

Record Config := {
  BaseURL : string;
  APIKey : string;
  Timeout : Duration
}.

Definition NewClient (config : Config) : result Client :=
  if decide (BaseURL config = "") then Err "base URL is required"
  else if decide (APIKey config = "") then Err "API key is required"
  else
    let timeout := Timeout config in
    let timeout := if decide (timeout = 0) then defaultTimeout else timeout in
    Ok {| baseURL := BaseURL config;
          apiKey := APIKey config;
          httpClient := {| http_Timeout := timeout |} |}.

(** [c.httpClient.Do(req)] and [io.ReadAll(resp.Body)]: the request is
    recorded and the remote side moves on. *)
Definition Do (c : HttpClient) (req : Request) : M RoundTrip :=
  fun w =>
    let (rt, s') := http_Do (http_Timeout c) req (server w) in
    (rt, {| server := s'; sent := sent w ++ [req] |}).

Definition set_headers (c : Client) : list (string * string) :=
  [("X-N8N-API-KEY", apiKey c);
   ("Content-Type", "application/json");
   ("Accept", "application/json");
   ("User-Agent", userAgent)].

Definition marshal_body (body : option Body) : result (option string) :=
  match body with
  | None => Ok None
  | Some b =>
      match json_Marshal b with
      | Err e => Err ("failed to marshal request body: " +:+ e)
      | Ok jsonBody => Ok (Some jsonBody)
      end
  end.

(** [HTTP %d: %s] and [API error: %s - %s] *)
Definition http_status_error (status : Z) (respBody : string) : error :=
  "HTTP " +:+ pretty status +:+ ": " +:+ respBody.
Definition api_error (e : ErrorResponse) : error :=
  "API error: " +:+ Code e +:+ " - " +:+ Message e.

(** What [doRequest] returns once the response is in. *)
Definition classify (rt : RoundTrip) : result string :=
  match rt with
  | DoError e => Err ("failed to perform request: " +:+ e)
  | ReadError _ e => Err ("failed to read response body: " +:+ e)
  | Response status respBody =>
      if 400 <=? status then
        match json_Unmarshal_ErrorResponse respBody with
        | Err _ => Err (http_status_error status respBody)
        | Ok errResp => Err (api_error errResp)
        end
      else Ok respBody
  end.

(** The request [doRequest] sends: [http.NewRequestWithContext] followed
    by the four [req.Header.Set]. *)
Definition new_request (c : Client) (ctx : GoContext) (method url : string)
    (reqBody : option string) : Request :=
  {| req_ctx := ctx; Method := method; URL := url;
     Header := set_headers c; ReqBody := reqBody |}.

Definition request_url (c : Client) (path : string) : string :=
  baseURL c +:+ "/api/v1" +:+ path.

Definition doRequest (c : Client) (ctx : GoContext) (method path : string)
    (body : option Body) : M (result string) :=
  let url := request_url c path in
  match marshal_body body with
  | Err e => ret (Err e)
  | Ok reqBody =>
      match http_NewRequest_error method url with
      | Some e => ret (Err ("failed to create request: " +:+ e))
      | None =>
          let req := new_request c ctx method url reqBody in
          let! rt := Do (httpClient c) req in
          ret (classify rt)
      end
  end.

(** *** [users.go] *)
Definition GetUser (c : Client) (ctx : GoContext) (id : string) : M (result User) :=
  let path := "/users/" +:+ id in
  let! r := doRequest c ctx "GET" path None in
  match r with
  | Err e => ret (Err e)
  | Ok body =>
      match json_Unmarshal_UserResponse body with
      | Err e => ret (Err ("failed to unmarshal user response: " +:+ e))
      | Ok resp => ret (Ok (Data resp))
      end
  end.

Definition GetUserByEmail (c : Client) (ctx : GoContext) (email : string)
    : M (result User) :=
  GetUser c ctx email.

Definition CreateUser (c : Client) (ctx : GoContext) (req : CreateUserRequest)
    : M (result User) :=
  let! r := doRequest c ctx "POST" "/users" (Some (BodyCreateUser req)) in
  match r with
  | Err e => ret (Err e)
  | Ok body =>
      match json_Unmarshal_UserResponse body with
      | Err e => ret (Err ("failed to unmarshal create user response: " +:+ e))
      | Ok resp => ret (Ok (Data resp))
      end
  end.

(** [UpdateUserRole] and [DeleteUser] return only an [error]:
    [None] is [nil]. *)
Definition error_of {A} (r : result A) : option error :=
  match r with Ok _ => None | Err e => Some e end.

Definition UpdateUserRole (c : Client) (ctx : GoContext) (id newRole : string)
    : M (option error) :=
  let path := "/users/" +:+ id +:+ "/role" in
  let req := {| NewRoleName := newRole |} in
  let! r := doRequest c ctx "PATCH" path (Some (BodyUpdateUserRole req)) in
  ret (error_of r).

Definition DeleteUser (c : Client) (ctx : GoContext) (id : string)
    : M (option error) :=
  let path := "/users/" +:+ id in
  let! r := doRequest c ctx "DELETE" path None in
  ret (error_of r).

End Client.

(** *** [users.go]: [ListUsers]

    [json.Unmarshal] into [UsersResponse] is a parameter of the
    section. *)
Section ListUsers.
Context `{Platform}.

(** [Data] and [NextCursor] of [UsersResponse]; the prefix keeps [Data]
    apart from the field of [UserResponse]. *)
Record UsersResponse := {
  us_Data : list User;
  NextCursor : option string       (* *string *)
}.

Variable json_Unmarshal_UsersResponse : string -> result UsersResponse.

Definition ListUsers (c : Client) (ctx : GoContext) : M (result (list User)) :=
  let! r := doRequest c ctx "GET" "/users" None in
  match r with
  | Err e => ret (Err e)
  | Ok body =>
      match json_Unmarshal_UsersResponse body with
      | Err e => ret (Err ("failed to unmarshal users response: " +:+ e))
      | Ok resp => ret (Ok (us_Data resp))
      end
  end.

End ListUsers.

End client.

(** ** Package [provider] *)
Module provider.
Import client.GoNotations.

(** *** What the plugin framework hands to and takes from a method *)

(** One attribute of a Terraform state object. *)
Inductive AttrValue :=
| AString (v : types.String)
| ABool (v : types.Bool).

#[global] Instance AttrValue_eq_dec : EqDecision AttrValue.
Proof. solve_decision. Defined.

(** [tfsdk.State]: attribute name to value. *)
Abbreviation tfState := (gmap string AttrValue).

(** The result of [req.Config.Get(ctx, &data)], [req.Plan.Get] or
    [req.State.Get]: the diagnostics of the conversion and the filled
    model. *)
Record Got (Model : Type) := {
  got_diags : Diagnostics;
  got_data : Model
}.
Arguments got_diags {Model} _.
Arguments got_data {Model} _.

(** The [resp] argument of the resource and data-source methods. *)
Record Response := {
  Diagnostics : diag.Diagnostics;
  State : tfState
}.

Definition resp_Append (resp : Response) (ds : diag.Diagnostics) : Response :=
  {| Diagnostics := Append (Diagnostics resp) ds; State := State resp |}.

Definition resp_AddError (resp : Response) (s d : string) : Response :=
  {| Diagnostics := AddError (Diagnostics resp) s d; State := State resp |}.

(** *** [provider.go] *)
Module N8nCloudProvider.

Record N8nCloudProviderModel := {
  APIKey : types.String;
  InstanceURL : types.String;
  Timeout : types.Int64
}.

(** [os.Getenv]: the empty string for a variable that is not set. *)
Definition Getenv (env : gmap string string) (key : string) : string :=
  default "" (env !! key).

Section Configure.
Context `{client.Platform}.

Record ConfigureRequest := { Config : Got N8nCloudProviderModel }.

Record ConfigureResponse := {
  cfg_Diagnostics : diag.Diagnostics;
  DataSourceData : option client.Client;
  ResourceData : option client.Client
}.

Definition with_diags (resp : ConfigureResponse) (ds : diag.Diagnostics)
    : ConfigureResponse :=
  {| cfg_Diagnostics := ds;
     DataSourceData := DataSourceData resp;
     ResourceData := ResourceData resp |}.

Definition unknown_api_key_detail : string :=
  "The provider cannot create the n8n Cloud API client as there is an unknown configuration value for the n8n Cloud API key. " +:+
  "Either target apply the source of the value first, set the value statically in the configuration, or use the N8N_API_KEY environment variable.".

Definition unknown_instance_url_detail : string :=
  "The provider cannot create the n8n Cloud API client as there is an unknown configuration value for the n8n Cloud instance URL. " +:+
  "Either target apply the source of the value first, set the value statically in the configuration, or use the N8N_INSTANCE_URL environment variable.".

Definition missing_api_key_detail : string :=
  "The provider cannot create the n8n Cloud API client as there is a missing or empty value for the n8n Cloud API key. " +:+
  "Set the api_key value in the configuration or use the N8N_API_KEY environment variable. " +:+
  "If either is already set, ensure the value is not empty.".

Definition missing_instance_url_detail : string :=
  "The provider cannot create the n8n Cloud API client as there is a missing or empty value for the n8n Cloud instance URL. " +:+
  "Set the instance_url value in the configuration or use the N8N_INSTANCE_URL environment variable. " +:+
  "If either is already set, ensure the value is not empty.".

Definition Configure (env : gmap string string) (req : ConfigureRequest)
    (resp : ConfigureResponse) : ConfigureResponse :=
  let data := got_data (Config req) in
  let resp := with_diags resp (Append (cfg_Diagnostics resp) (got_diags (Config req))) in
  if HasError (cfg_Diagnostics resp) then resp else
  (* Check configuration values *)
  let resp :=
    if types.IsUnknown (APIKey data)
    then with_diags resp (AddAttributeError (cfg_Diagnostics resp) "api_key"
                            "Unknown n8n Cloud API Key" unknown_api_key_detail)
    else resp in
  let resp :=
    if types.IsUnknown (InstanceURL data)
    then with_diags resp (AddAttributeError (cfg_Diagnostics resp) "instance_url"
                            "Unknown n8n Cloud Instance URL" unknown_instance_url_detail)
    else resp in
  if HasError (cfg_Diagnostics resp) then resp else
  (* Default values to environment variables, but override with the
     Terraform configuration value if set. *)
  let apiKey := Getenv env "N8N_API_KEY" in
  let instanceURL := Getenv env "N8N_INSTANCE_URL" in
  let timeout := 30 in
  let apiKey :=
    if negb (types.IsNull (APIKey data)) then types.ValueString (APIKey data)
    else apiKey in
  let instanceURL :=
    if negb (types.IsNull (InstanceURL data)) then types.ValueString (InstanceURL data)
    else instanceURL in
  let timeout :=
    if negb (types.Int64_IsNull (Timeout data)) then types.ValueInt64 (Timeout data)
    else timeout in
  (* Validate configuration *)
  let resp :=
    if decide (apiKey = "")
    then with_diags resp (AddAttributeError (cfg_Diagnostics resp) "api_key"
                            "Missing n8n Cloud API Key" missing_api_key_detail)
    else resp in
  let resp :=
    if decide (instanceURL = "")
    then with_diags resp (AddAttributeError (cfg_Diagnostics resp) "instance_url"
                            "Missing n8n Cloud Instance URL" missing_instance_url_detail)
    else resp in
  if HasError (cfg_Diagnostics resp) then resp else
  (* Create the API client *)
  let clientConfig :=
    {| client.BaseURL := instanceURL;
       client.APIKey := apiKey;
       client.Timeout := mul64 timeout Second |} in
  match client.NewClient clientConfig with
  | Err err =>
      with_diags resp
        (AddError (cfg_Diagnostics resp) "Unable to create n8n Cloud API Client"
           ("An unexpected error occurred when creating the n8n Cloud API client: " +:+ err))
  | Ok apiClient =>
      {| cfg_Diagnostics := cfg_Diagnostics resp;
         DataSourceData := Some apiClient;
         ResourceData := Some apiClient |}
  end.

End Configure.

End N8nCloudProvider.

(** A [*string] field of the response: [types.StringValue] of the
    pointee when the pointer is not nil, [types.StringNull()] for nil. *)
Definition string_of_ptr (p : option string) : types.String :=
  match p with
  | Some s => types.StringValue s
  | None => types.StringNull
  end.

(** [types.StringValue(s)] for a non-empty [s], [types.StringNull()]
    otherwise. *)
Definition string_or_null (s : string) : types.String :=
  if decide (s = "") then types.StringNull else types.StringValue s.

(** *** Schemas and provider data, as the plugin framework has them *)

(** The attribute constructors the schemas use. *)
Inductive AttrType := StringAttribute | BoolAttribute | Int64Attribute.

Inductive PlanModifier := UseStateForUnknown | RequiresReplace.

(** The fields of [schema.StringAttribute], [schema.BoolAttribute] and
    [schema.Int64Attribute] that the schemas set; a field a literal
    leaves out has its zero value. *)
Record Attribute := {
  attr_type : AttrType;
  MarkdownDescription : string;
  Required : bool;
  Optional : bool;
  Computed : bool;
  Sensitive : bool;
  PlanModifiers : list PlanModifier
}.

#[global] Instance AttrType_eq_dec : EqDecision AttrType.
Proof. solve_decision. Defined.

(** The attribute type a state value belongs to. *)
Definition type_of (v : AttrValue) : AttrType :=
  match v with
  | AString _ => StringAttribute
  | ABool _ => BoolAttribute
  end.

(** The null value of an attribute type. The schemas that have a state
    (resource and data source) declare string and bool attributes only;
    the model has no state value of an [Int64Attribute]. *)
Definition null_of (t : AttrType) : option AttrValue :=
  match t with
  | StringAttribute => Some (AString types.StringNull)
  | BoolAttribute => Some (ABool types.BoolNull)
  | Int64Attribute => None
  end.

(** The object the framework creates for a schema when a state that is
    null receives its first attribute: every attribute null. *)
Definition null_object (schema : gmap string Attribute) : tfState :=
  omap (fun a => null_of (attr_type a)) schema.

(** The detail text of the framework's own diagnostics; it is not part
    of this repository and is not reproduced. *)
Definition framework_detail : string := "".

(** [resp.Diagnostics.Append(resp.State.SetAttribute(ctx,
    path.Root(name), val)...)] for a Go string [val], as
    terraform-plugin-framework does it. The state carries its schema.
    The path must be an attribute of the schema ([State Write Error]
    otherwise) and the string must convert to the attribute's type
    ([Value Conversion Error] otherwise); in both cases the state is
    left as it is. A state that is null (the empty map: no object yet)
    first becomes the object of the schema with every attribute null;
    then the attribute is set. *)
Definition SetAttribute (schema : gmap string Attribute) (resp : Response)
    (name : string) (val : string) : Response :=
  match attr_type <$> schema !! name with
  | None =>
      {| Diagnostics := AddAttributeError (Diagnostics resp) name
                          "State Write Error" framework_detail;
         State := State resp |}
  | Some StringAttribute =>
      let object := if decide (State resp = ∅) then null_object schema
                    else State resp in
      {| Diagnostics := Diagnostics resp;
         State := <[name := AString (types.StringValue val)]> object |}
  | Some _ =>
      {| Diagnostics := AddAttributeError (Diagnostics resp) name
                          "Value Conversion Error" framework_detail;
         State := State resp |}
  end.

Section ProviderData.
Context `{client.Platform}.

(** [req.ProviderData] is an [any]: the provider's client, or a value of
    another dynamic type, known here by the name [%T] prints. [None] is
    the nil interface. *)
Inductive any :=
| AnyClient (c : client.Client)
| AnyOther (type_name : string).

(** [resource.ConfigureRequest] and [datasource.ConfigureRequest]. *)
Record ConfigureRequest := { ProviderData : option any }.

End ProviderData.

(** *** [user_data_source.go] *)
Module UserDataSource.

Record UserDataSourceModel := {
  ID : types.String;
  Email : types.String;
  Role : types.String;
  FirstName : types.String;
  LastName : types.String;
  IsPending : types.Bool;
  CreatedAt : types.String;
  UpdatedAt : types.String;
  InviteAcceptURL : types.String
}.

(** [resp.State.Set(ctx, &data)]: every attribute of the schema is
    written from the field carrying its [tfsdk] tag. *)
Definition State_Set (data : UserDataSourceModel) : tfState :=
  list_to_map
    [("id", AString (ID data));
     ("email", AString (Email data));
     ("role", AString (Role data));
     ("first_name", AString (FirstName data));
     ("last_name", AString (LastName data));
     ("is_pending", ABool (IsPending data));
     ("created_at", AString (CreatedAt data));
     ("updated_at", AString (UpdatedAt data));
     ("invite_accept_url", AString (InviteAcceptURL data))].

(** [Schema]: the attributes of the data source. *)
Definition Schema : gmap string Attribute :=
  list_to_map
    [("id",
      {| attr_type := StringAttribute;
         MarkdownDescription :=
           "The unique identifier of the user. Either id or email must be specified.";
         Required := false; Optional := true; Computed := true;
         Sensitive := false; PlanModifiers := [] |});
     ("email",
      {| attr_type := StringAttribute;
         MarkdownDescription :=
           "The email address of the user. Either id or email must be specified.";
         Required := false; Optional := true; Computed := true;
         Sensitive := false; PlanModifiers := [] |});
     ("role",
      {| attr_type := StringAttribute;
         MarkdownDescription := "The role of the user";
         Required := false; Optional := false; Computed := true;
         Sensitive := false; PlanModifiers := [] |});
     ("first_name",
      {| attr_type := StringAttribute;
         MarkdownDescription := "The first name of the user";
         Required := false; Optional := false; Computed := true;
         Sensitive := false; PlanModifiers := [] |});
     ("last_name",
      {| attr_type := StringAttribute;
         MarkdownDescription := "The last name of the user";
         Required := false; Optional := false; Computed := true;
         Sensitive := false; PlanModifiers := [] |});
     ("is_pending",
      {| attr_type := BoolAttribute;
         MarkdownDescription := "Whether the user has not yet set up their account";
         Required := false; Optional := false; Computed := true;
         Sensitive := false; PlanModifiers := [] |});
     ("created_at",
      {| attr_type := StringAttribute;
         MarkdownDescription := "The timestamp when the user was created";
         Required := false; Optional := false; Computed := true;
         Sensitive := false; PlanModifiers := [] |});
     ("updated_at",
      {| attr_type := StringAttribute;
         MarkdownDescription := "The timestamp when the user was last updated";
         Required := false; Optional := false; Computed := true;
         Sensitive := false; PlanModifiers := [] |});
     ("invite_accept_url",
      {| attr_type := StringAttribute;
         MarkdownDescription := "The URL for the user to accept their invitation";
         Required := false; Optional := false; Computed := true;
         Sensitive := false; PlanModifiers := [] |})].

(** [Metadata]: the type name of the data source. *)
Definition Metadata (ProviderTypeName : string) : string :=
  ProviderTypeName +:+ "_user".

Section Methods.
Context `{client.Platform}.

Record UserDataSource := { client : client.Client }.

(** [Configure]: the receiver's [client] pointer ([None] is nil) before
    and after, and the diagnostics. *)
Definition Configure (d_client : option client.Client) (req : ConfigureRequest)
    (diags : diag.Diagnostics) : option client.Client * diag.Diagnostics :=
  match ProviderData req with
  | None =>
      (* Prevent panic if the provider has not been configured. *)
      (d_client, diags)
  | Some (AnyClient c) => (Some c, diags)
  | Some (AnyOther type_name) =>
      (d_client,
       AddError diags "Unexpected Data Source Configure Type"
         ("Expected *client.Client, got: " +:+ type_name +:+
          ". Please report this issue to the provider developers."))
  end.

Record ReadRequest := { Config : Got UserDataSourceModel }.

(** Map response body to model *)
Definition map_user (user : client.User) : UserDataSourceModel :=
  {| ID := types.StringValue (client.ID user);
     Email := types.StringValue (client.Email user);
     IsPending := types.BoolValue (client.IsPending user);
     CreatedAt := types.StringValue (client.Format_RFC3339 (client.CreatedAt user));
     UpdatedAt := types.StringValue (client.Format_RFC3339 (client.UpdatedAt user));
     Role := match client.GlobalRole user with
             | Some r => types.StringValue (client.Name r)
             | None => types.StringNull
             end;
     FirstName := string_of_ptr (client.FirstName user);
     LastName := string_of_ptr (client.LastName user);
     InviteAcceptURL := string_or_null (client.InviteAcceptUrl user) |}.

Definition Read (d : UserDataSource) (ctx : client.GoContext) (req : ReadRequest)
    (resp : Response) : client.M Response :=
  let data := got_data (Config req) in
  let resp := resp_Append resp (got_diags (Config req)) in
  if HasError (Diagnostics resp) then client.ret resp else
  (* Validate that either ID or email is specified *)
  if types.IsNull (ID data) && types.IsNull (Email data) then
    client.ret (resp_AddError resp "Missing Attribute"
                  "Either 'id' or 'email' must be specified")
  else
  (* Query by ID or email *)
  let! r := (if negb (types.IsNull (ID data))
        then client.GetUser (client d) ctx (types.ValueString (ID data))
        else client.GetUserByEmail (client d) ctx (types.ValueString (Email data))) in
  match r with
  | Err err =>
      client.ret (resp_AddError resp "Client Error"
                    ("Unable to read user, got error: " +:+ err))
  | Ok user =>
      (* every field of [data] is assigned from [user] *)
      let data := map_user user in
      (* Save data into Terraform state *)
      client.ret {| Diagnostics := Diagnostics resp; State := State_Set data |}
  end.

End Methods.

End UserDataSource.

(** *** [user_resource.go] *)
Module UserResource.

Record UserResourceModel := {
  ID : types.String;
  Email : types.String;
  Role : types.String;
  FirstName : types.String;
  LastName : types.String;
  IsPending : types.Bool;
  CreatedAt : types.String;
  UpdatedAt : types.String;
  InviteAcceptURL : types.String
}.

Definition State_Set (data : UserResourceModel) : tfState :=
  list_to_map
    [("id", AString (ID data));
     ("email", AString (Email data));
     ("role", AString (Role data));
     ("first_name", AString (FirstName data));
     ("last_name", AString (LastName data));
     ("is_pending", ABool (IsPending data));
     ("created_at", AString (CreatedAt data));
     ("updated_at", AString (UpdatedAt data));
     ("invite_accept_url", AString (InviteAcceptURL data))].

(** [Schema]: the attributes of the resource. *)
Definition Schema : gmap string Attribute :=
  list_to_map
    [("id",
      {| attr_type := StringAttribute;
         MarkdownDescription := "The unique identifier of the user";
         Required := false; Optional := false; Computed := true;
         Sensitive := false; PlanModifiers := [UseStateForUnknown] |});
     ("email",
      {| attr_type := StringAttribute;
         MarkdownDescription := "The email address of the user";
         Required := true; Optional := false; Computed := false;
         Sensitive := false; PlanModifiers := [RequiresReplace] |});
     ("role",
      {| attr_type := StringAttribute;
         MarkdownDescription := "The role of the user (global:admin or global:member)";
         Required := true; Optional := false; Computed := false;
         Sensitive := false; PlanModifiers := [] |});
     ("first_name",
      {| attr_type := StringAttribute;
         MarkdownDescription := "The first name of the user";
         Required := false; Optional := false; Computed := true;
         Sensitive := false; PlanModifiers := [] |});
     ("last_name",
      {| attr_type := StringAttribute;
         MarkdownDescription := "The last name of the user";
         Required := false; Optional := false; Computed := true;
         Sensitive := false; PlanModifiers := [] |});
     ("is_pending",
      {| attr_type := BoolAttribute;
         MarkdownDescription :=
           "Whether the user has not yet set up their account. This value is managed externally and will change when the user accepts their invitation.";
         Required := false; Optional := false; Computed := true;
         Sensitive := false; PlanModifiers := [UseStateForUnknown] |});
     ("created_at",
      {| attr_type := StringAttribute;
         MarkdownDescription := "The timestamp when the user was created";
         Required := false; Optional := false; Computed := true;
         Sensitive := false; PlanModifiers := [UseStateForUnknown] |});
     ("updated_at",
      {| attr_type := StringAttribute;
         MarkdownDescription :=
           "The timestamp when the user was last updated. This value is updated externally when the user's information changes.";
         Required := false; Optional := false; Computed := true;
         Sensitive := false; PlanModifiers := [UseStateForUnknown] |});
     ("invite_accept_url",
      {| attr_type := StringAttribute;
         MarkdownDescription := "The URL for the user to accept their invitation";
         Required := false; Optional := false; Computed := true;
         Sensitive := false; PlanModifiers := [] |})].

(** [Metadata]: the type name of the resource. *)
Definition Metadata (ProviderTypeName : string) : string :=
  ProviderTypeName +:+ "_user".

Section Methods.
Context `{client.Platform}.

Record UserResource := { client : client.Client }.

(** [Configure]: the receiver's [client] pointer ([None] is nil) before
    and after, and the diagnostics. *)
Definition Configure (r_client : option client.Client) (req : ConfigureRequest)
    (diags : diag.Diagnostics) : option client.Client * diag.Diagnostics :=
  match ProviderData req with
  | None =>
      (* Prevent panic if the provider has not been configured. *)
      (r_client, diags)
  | Some (AnyClient c) => (Some c, diags)
  | Some (AnyOther type_name) =>
      (r_client,
       AddError diags "Unexpected Resource Configure Type"
         ("Expected *client.Client, got: " +:+ type_name +:+
          ". Please report this issue to the provider developers."))
  end.

(** [req.Plan], [req.State] and [req.ID] of the five request types. *)
Record CreateRequest := { cr_Plan : Got UserResourceModel }.
Record ReadRequest := { rd_State : Got UserResourceModel }.
Record UpdateRequest := { up_Plan : Got UserResourceModel }.
Record DeleteRequest := { del_State : Got UserResourceModel }.
Record ImportStateRequest := { imp_ID : string }.

Definition Create (r : UserResource) (ctx : client.GoContext) (req : CreateRequest)
    (resp : Response) : client.M Response :=
  let data := got_data (cr_Plan req) in
  let resp := resp_Append resp (got_diags (cr_Plan req)) in
  if HasError (Diagnostics resp) then client.ret resp else
  (* Create the user *)
  let createReq :=
    {| client.cr_Email := types.ValueString (Email data);
       client.cr_Role := types.ValueString (Role data);
       client.cr_FirstName := "";
       client.cr_LastName := "" |} in
  let! res := client.CreateUser (client r) ctx createReq in
  match res with
  | Err err =>
      client.ret (resp_AddError resp "Client Error"
                    ("Unable to create user, got error: " +:+ err))
  | Ok user =>
      (* Map response body to schema and populate computed attributes *)
      let data :=
        {| ID := types.StringValue (client.ID user);
           Email := Email data;
           IsPending := types.BoolValue (client.IsPending user);
           CreatedAt := types.StringValue (client.Format_RFC3339 (client.CreatedAt user));
           UpdatedAt := types.StringValue (client.Format_RFC3339 (client.UpdatedAt user));
           (* Set role from API response *)
           Role := if decide (client.Role user = "") then Role data
                   else types.StringValue (client.Role user);
           FirstName := string_of_ptr (client.FirstName user);
           LastName := string_of_ptr (client.LastName user);
           InviteAcceptURL := string_or_null (client.InviteAcceptUrl user) |} in
      (* Save data into Terraform state *)
      client.ret {| Diagnostics := Diagnostics resp; State := State_Set data |}
  end.

Definition Read (r : UserResource) (ctx : client.GoContext) (req : ReadRequest)
    (resp : Response) : client.M Response :=
  let data := got_data (rd_State req) in
  let resp := resp_Append resp (got_diags (rd_State req)) in
  if HasError (Diagnostics resp) then client.ret resp else
  (* Get fresh user data from API *)
  let! res := client.GetUser (client r) ctx (types.ValueString (ID data)) in
  match res with
  | Err err =>
      client.ret (resp_AddError resp "Client Error"
                    ("Unable to read user, got error: " +:+ err))
  | Ok user =>
      (* Update the model with the latest data *)
      let data :=
        {| ID := ID data;
           Email := types.StringValue (client.Email user);
           IsPending := types.BoolValue (client.IsPending user);
           CreatedAt := types.StringValue (client.Format_RFC3339 (client.CreatedAt user));
           UpdatedAt := types.StringValue (client.Format_RFC3339 (client.UpdatedAt user));
           Role := if decide (client.Role user = "") then Role data
                   else types.StringValue (client.Role user);
           FirstName := string_of_ptr (client.FirstName user);
           LastName := string_of_ptr (client.LastName user);
           InviteAcceptURL := string_or_null (client.InviteAcceptUrl user) |} in
      client.ret {| Diagnostics := Diagnostics resp; State := State_Set data |}
  end.

Definition Update (r : UserResource) (ctx : client.GoContext) (req : UpdateRequest)
    (resp : Response) : client.M Response :=
  let data := got_data (up_Plan req) in
  let resp := resp_Append resp (got_diags (up_Plan req)) in
  if HasError (Diagnostics resp) then client.ret resp else
  (* Update user role (only field that can be updated) *)
  let! err := client.UpdateUserRole (client r) ctx (types.ValueString (ID data))
           (types.ValueString (Role data)) in
  match err with
  | Some err =>
      client.ret (resp_AddError resp "Client Error"
                    ("Unable to update user role, got error: " +:+ err))
  | None =>
      (* Get updated user data *)
      let! res := client.GetUser (client r) ctx (types.ValueString (ID data)) in
      match res with
      | Err err =>
          client.ret (resp_AddError resp "Client Error"
                        ("Unable to read updated user, got error: " +:+ err))
      | Ok user =>
          (* Update the model with the latest data *)
          let data :=
            {| ID := ID data;
               Email := Email data;
               Role := Role data;
               FirstName := FirstName data;
               LastName := LastName data;
               IsPending := IsPending data;
               CreatedAt := CreatedAt data;
               UpdatedAt := types.StringValue (client.Format_RFC3339 (client.UpdatedAt user));
               InviteAcceptURL := InviteAcceptURL data |} in
          client.ret {| Diagnostics := Diagnostics resp; State := State_Set data |}
      end
  end.

Definition Delete (r : UserResource) (ctx : client.GoContext) (req : DeleteRequest)
    (resp : Response) : client.M Response :=
  let data := got_data (del_State req) in
  let resp := resp_Append resp (got_diags (del_State req)) in
  if HasError (Diagnostics resp) then client.ret resp else
  let! err := client.DeleteUser (client r) ctx (types.ValueString (ID data)) in
  match err with
  | Some err =>
      client.ret (resp_AddError resp "Client Error"
                    ("Unable to delete user, got error: " +:+ err))
  | None => client.ret resp
  end.

Definition ImportState (r : UserResource) (ctx : client.GoContext)
    (req : ImportStateRequest) (resp : Response) : client.M Response :=
  (* Use email as import ID *)
  let email := imp_ID req in
  (* Get user directly by email (API supports email as identifier) *)
  let! res := client.GetUser (client r) ctx email in
  match res with
  | Err err =>
      client.ret (resp_AddError resp "Client Error"
                    ("Unable to get user by email " +:+ email +:+ ", got error: " +:+ err))
  | Ok user =>
      (* Set the resource ID and email *)
      let resp := SetAttribute Schema resp "id" (client.ID user) in
      let resp := SetAttribute Schema resp "email" (client.Email user) in
      client.ret resp
  end.

End Methods.

End UserResource.

End provider.

(** ** A concrete platform for examples

    Contexts carry nothing, a time is kept as its RFC 3339 text, the
    remote side is a script of round-trip outcomes consumed one per
    request, and the JSON codec knows the documents of the examples. *)
Module demo.

#[global] Instance host : client.Host := {|
  client.GoContext := unit;
  client.Time := string;
  client.Format_RFC3339 := fun t => t
|}.

Definition field (k v : string) : string := quote k +:+ ":" +:+ quote v.

(** [{"code":"404","message":"Not Found"}] *)
Definition not_found_json : string :=
  "{" +:+ field "code" "404" +:+ "," +:+ field "message" "Not Found" +:+ "}".

Definition alice : client.User := {|
  client.ID := "u-1";
  client.Email := "alice@example.com";
  client.FirstName := Some "Alice";
  client.LastName := None;
  client.IsPending := true;
  client.CreatedAt := "2024-05-01T10:00:00Z";
  client.UpdatedAt := "2024-05-02T11:30:00Z";
  client.Role := "global:admin";
  client.InviteAcceptUrl := "https://n8n.example/signup?inviterId=1";
  client.GlobalRole := Some {| client.Name := "global:admin" |}
|}.

(** The same user in a response that omits [role] and
    [inviteAcceptUrl] (both are [omitempty] in [types.go]). *)
Definition alice_without_role : client.User := {|
  client.ID := "u-1";
  client.Email := "alice@example.com";
  client.FirstName := Some "Alice";
  client.LastName := None;
  client.IsPending := true;
  client.CreatedAt := "2024-05-01T10:00:00Z";
  client.UpdatedAt := "2024-05-02T11:30:00Z";
  client.Role := "";
  client.InviteAcceptUrl := "";
  client.GlobalRole := None
|}.

(** The bodies that stand for the two documents above. *)
Definition alice_json : string :=
  "{" +:+ quote "data" +:+ ":{" +:+ field "id" "u-1" +:+ "," +:+
  field "role" "global:admin" +:+ ",...}}".
Definition alice_without_role_json : string :=
  "{" +:+ quote "data" +:+ ":{" +:+ field "id" "u-1" +:+ ",...}}".

Definition unmarshal_error (body : string) : result client.ErrorResponse :=
  if decide (body = not_found_json)
  then Ok {| client.Code := "404"; client.Message := "Not Found"; client.Hint := "" |}
  else Err "invalid character".

Definition unmarshal_user (body : string) : result client.UserResponse :=
  if decide (body = alice_json) then Ok {| client.Data := alice |}
  else if decide (body = alice_without_role_json)
  then Ok {| client.Data := alice_without_role |}
  else Err "unexpected end of JSON input".

Definition marshal (b : client.Body) : result string :=
  match b with
  | client.BodyCreateUser r =>
      Ok ("{" +:+ field "email" (client.cr_Email r) +:+ "," +:+
          field "role" (client.cr_Role r) +:+ "}")
  | client.BodyUpdateUserRole r =>
      Ok ("{" +:+ field "newRoleName" (client.NewRoleName r) +:+ "}")
  end.

(** The script: the next outcome answers the next request; an exhausted
    script refuses the connection. *)
Definition scripted (_ : Duration) (_ : client.Request)
    (script : list client.RoundTrip) : client.RoundTrip * list client.RoundTrip :=
  match script with
  | [] => (client.DoError "connection refused", [])
  | rt :: rest => (rt, rest)
  end.

#[global] Instance platform : client.Platform := {|
  client.json_Marshal := marshal;
  client.json_Unmarshal_ErrorResponse := unmarshal_error;
  client.json_Unmarshal_UserResponse := unmarshal_user;
  client.http_NewRequest_error := fun _ _ => None;
  client.Server := list client.RoundTrip;
  client.http_Do := scripted
|}.

Definition the_client : client.Client := {|
  client.baseURL := "https://demo.app.n8n.cloud";
  client.apiKey := "secret";
  client.httpClient := {| client.http_Timeout := client.defaultTimeout |}
|}.

Definition ctx : client.GoContext := tt.

Definition world (script : list client.RoundTrip) : client.World :=
  {| client.server := script; client.sent := [] |}.

Definition no_resp : provider.Response :=
  {| provider.Diagnostics := []; provider.State := ∅ |}.

End demo.


(** ** Specification-side definitions *)

(** Precedence as the specification words it: an explicit value wins over
    the environment, which wins over a built-in default. *)
Definition precedence {A} (explicit env builtin : option A) : option A :=
  match explicit, env with
  | Some v, _ => Some v
  | None, Some v => Some v
  | None, None => builtin
  end.

(** The validation error of the data source. *)
Definition missing_attribute : Diagnostic :=
  NewErrorDiagnostic "Missing Attribute" "Either 'id' or 'email' must be specified".

(** The explicit configuration value of an attribute, if one is set. *)
Definition explicit_string (v : types.String) : option string :=
  match v with
  | types.StringValue s => Some s
  | _ => None
  end.

Definition explicit_int64 (v : types.Int64) : option Z :=
  match v with
  | types.Int64Value n => Some n
  | _ => None
  end.

(** An environment variable counts as set when it is not empty
    ([os.Getenv] does not tell the two apart). *)
Definition env_string (env : gmap string string) (key : string) : option string :=
  match env !! key with
  | Some "" => None
  | o => o
  end.

(** ** The lifecycle operations behind one interface

    The plugin host calls the methods one at a time; [run] is that
    dispatch, and [client_failure] says which client calls a method makes
    and when one of them returns an error. *)
Module lifecycle.
Import provider.

Section Lifecycle.
Context `{client.Platform}.

Inductive Operation :=
| Create (r : UserResource.UserResource) (req : UserResource.CreateRequest)
| Read (r : UserResource.UserResource) (req : UserResource.ReadRequest)
| Update (r : UserResource.UserResource) (req : UserResource.UpdateRequest)
| Delete (r : UserResource.UserResource) (req : UserResource.DeleteRequest)
| DataSourceRead (d : UserDataSource.UserDataSource)
    (req : UserDataSource.ReadRequest).

Definition run (op : Operation) (ctx : client.GoContext) (resp : Response)
    : client.M Response :=
  match op with
  | Create r req => UserResource.Create r ctx req resp
  | Read r req => UserResource.Read r ctx req resp
  | Update r req => UserResource.Update r ctx req resp
  | Delete r req => UserResource.Delete r ctx req resp
  | DataSourceRead d req => UserDataSource.Read d ctx req resp
  end.

(** The diagnostics of reading the plan, state or configuration of the
    request into the model. *)
Definition read_diags (op : Operation) : diag.Diagnostics :=
  match op with
  | Create _ req => got_diags (UserResource.cr_Plan req)
  | Read _ req => got_diags (UserResource.rd_State req)
  | Update _ req => got_diags (UserResource.up_Plan req)
  | Delete _ req => got_diags (UserResource.del_State req)
  | DataSourceRead _ req => got_diags (UserDataSource.Config req)
  end.

(** [client_failure op ctx w e w']: started in the world [w], a client
    call of the operation returns the error [e] and leaves the world
    [w']. *)
Definition client_failure (op : Operation) (ctx : client.GoContext)
    (w : client.World) (e : error) (w' : client.World) : Prop :=
  match op with
  | Create r req =>
      let data := got_data (UserResource.cr_Plan req) in
      client.CreateUser (UserResource.client r) ctx
        {| client.cr_Email := types.ValueString (UserResource.Email data);
           client.cr_Role := types.ValueString (UserResource.Role data);
           client.cr_FirstName := "";
           client.cr_LastName := "" |} w = (Err e, w')
  | Read r req =>
      let data := got_data (UserResource.rd_State req) in
      client.GetUser (UserResource.client r) ctx
        (types.ValueString (UserResource.ID data)) w = (Err e, w')
  | Update r req =>
      let data := got_data (UserResource.up_Plan req) in
      let id := types.ValueString (UserResource.ID data) in
      let role := types.ValueString (UserResource.Role data) in
      client.UpdateUserRole (UserResource.client r) ctx id role w = (Some e, w') \/
      exists w1,
        client.UpdateUserRole (UserResource.client r) ctx id role w = (None, w1) /\
        client.GetUser (UserResource.client r) ctx id w1 = (Err e, w')
  | Delete r req =>
      let data := got_data (UserResource.del_State req) in
      client.DeleteUser (UserResource.client r) ctx
        (types.ValueString (UserResource.ID data)) w = (Some e, w')
  | DataSourceRead d req =>
      let data := got_data (UserDataSource.Config req) in
      (types.IsNull (UserDataSource.ID data) = false /\
       client.GetUser (UserDataSource.client d) ctx
         (types.ValueString (UserDataSource.ID data)) w = (Err e, w')) \/
      (types.IsNull (UserDataSource.ID data) = true /\
       types.IsNull (UserDataSource.Email data) = false /\
       client.GetUserByEmail (UserDataSource.client d) ctx
         (types.ValueString (UserDataSource.Email data)) w = (Err e, w'))
  end.

End Lifecycle.

End lifecycle.

(** ** Inputs of the examples *)

(** The plan of the examples: only the two required attributes are
    configured, every computed attribute is still unknown. *)
Definition demo_plan : provider.UserResource.UserResourceModel := {|
  provider.UserResource.ID := types.StringUnknown;
  provider.UserResource.Email := types.StringValue "alice@example.com";
  provider.UserResource.Role := types.StringValue "global:member";
  provider.UserResource.FirstName := types.StringUnknown;
  provider.UserResource.LastName := types.StringUnknown;
  provider.UserResource.IsPending := types.BoolUnknown;
  provider.UserResource.CreatedAt := types.StringUnknown;
  provider.UserResource.UpdatedAt := types.StringUnknown;
  provider.UserResource.InviteAcceptURL := types.StringUnknown
|}.

(** The plan of an update in the examples: the stored object, with
    [role] changed to [global:admin]. *)
Definition demo_stored : provider.UserResource.UserResourceModel := {|
  provider.UserResource.ID := types.StringValue "u-1";
  provider.UserResource.Email := types.StringValue "alice@example.com";
  provider.UserResource.Role := types.StringValue "global:admin";
  provider.UserResource.FirstName := types.StringValue "Alice";
  provider.UserResource.LastName := types.StringNull;
  provider.UserResource.IsPending := types.BoolValue false;
  provider.UserResource.CreatedAt := types.StringValue "2024-05-01T10:00:00Z";
  provider.UserResource.UpdatedAt := types.StringValue "2024-05-01T10:00:00Z";
  provider.UserResource.InviteAcceptURL := types.StringNull
|}.

(** A response whose state holds a stored object. *)
Definition demo_prior_resp : provider.Response := {|
  provider.Diagnostics := [];
  provider.State :=
    <["role" := provider.AString (types.StringValue "global:member")]>
      (provider.UserResource.State_Set demo_stored)
|}.

Definition got {Model} (data : Model) : provider.Got Model :=
  {| provider.got_diags := []; provider.got_data := data |}.

Definition demo_resource : provider.UserResource.UserResource :=
  {| provider.UserResource.client := demo.the_client |}.

Definition demo_data_source : provider.UserDataSource.UserDataSource :=
  {| provider.UserDataSource.client := demo.the_client |}.

(** A data-source configuration: [id] and [email] as given, every other
    attribute null. *)
Definition demo_config (id email : types.String)
    : provider.UserDataSource.UserDataSourceModel := {|
  provider.UserDataSource.ID := id;
  provider.UserDataSource.Email := email;
  provider.UserDataSource.Role := types.StringNull;
  provider.UserDataSource.FirstName := types.StringNull;
  provider.UserDataSource.LastName := types.StringNull;
  provider.UserDataSource.IsPending := types.BoolNull;
  provider.UserDataSource.CreatedAt := types.StringNull;
  provider.UserDataSource.UpdatedAt := types.StringNull;
  provider.UserDataSource.InviteAcceptURL := types.StringNull
|}.

(** Provider configuration of the examples: the key is configured, the
    URL comes from the environment, the time-out is left to its
    default. *)
Definition demo_env : gmap string string :=
  <["N8N_API_KEY" := "env-key"]>
    (<["N8N_INSTANCE_URL" := "https://env.app.n8n.cloud"]> ∅).

Definition demo_provider_config : provider.N8nCloudProvider.N8nCloudProviderModel := {|
  provider.N8nCloudProvider.APIKey := types.StringValue "cfg-key";
  provider.N8nCloudProvider.InstanceURL := types.StringNull;
  provider.N8nCloudProvider.Timeout := types.Int64Null
|}.

Definition demo_configure_resp : provider.N8nCloudProvider.ConfigureResponse := {|
  provider.N8nCloudProvider.cfg_Diagnostics := [];
  provider.N8nCloudProvider.DataSourceData := None;
  provider.N8nCloudProvider.ResourceData := None
|}.

(** ** [provider_test.go]: the acceptance pre-check *)
Module provider_test.

(** [testAccPreCheck]: [t.Fatal] ends the test at the first variable
    that is not set; the result is its message, [None] when the
    pre-check passes. *)
Definition testAccPreCheck (env : gmap string string) : option string :=
  if decide (provider.N8nCloudProvider.Getenv env "TF_ACC" = "")
  then Some "TF_ACC must be set for acceptance tests"
  else if decide (provider.N8nCloudProvider.Getenv env "N8N_API_KEY" = "")
  then Some "N8N_API_KEY must be set for acceptance tests"
  else if decide (provider.N8nCloudProvider.Getenv env "N8N_INSTANCE_URL" = "")
  then Some "N8N_INSTANCE_URL must be set for acceptance tests"
  else None.

End provider_test.

(** ** Further inputs of the examples *)

(** A platform like [demo.platform] whose request constructor refuses a
    URL with a malformed percent escape, as [net/url] does. *)
Definition strict_platform : client.Platform := {|
  client.json_Marshal := demo.marshal;
  client.json_Unmarshal_ErrorResponse := demo.unmarshal_error;
  client.json_Unmarshal_UserResponse := demo.unmarshal_user;
  client.http_NewRequest_error := fun _ url =>
    if contains url "%zz" then Some "invalid URL escape" else None;
  client.Server := list client.RoundTrip;
  client.http_Do := demo.scripted
|}.

(** The body that stands for a first page holding [demo.alice], with a
    cursor to a next page. *)
Definition demo_page_json : string :=
  "{" +:+ quote "data" +:+ ":[...]," +:+ demo.field "nextCursor" "page-2" +:+ "}".

Definition demo_unmarshal_users (body : string) : result client.UsersResponse :=
  if decide (body = demo_page_json)
  then Ok {| client.us_Data := [demo.alice]; client.NextCursor := Some "page-2" |}
  else Err "unexpected end of JSON input".

(** The environment of an acceptance run. *)
Definition demo_acc_env : gmap string string :=
  <["TF_ACC" := "1"]> demo_env.

(** A provider block that sets nothing. *)
Definition empty_provider_config : provider.N8nCloudProvider.N8nCloudProviderModel := {|
  provider.N8nCloudProvider.APIKey := types.StringNull;
  provider.N8nCloudProvider.InstanceURL := types.StringNull;
  provider.N8nCloudProvider.Timeout := types.Int64Null
|}.

(** * Properties *)

(** ** The transport and the entity client *)
Section ClientFacts.
Context `{client.Platform}.
Import client.

Lemma doRequest_unfold c ctx method path body w :
  doRequest c ctx method path body w =
  match marshal_body body with
  | Err e => (Err e, w)
  | Ok reqBody =>
      match http_NewRequest_error method (request_url c path) with
      | Some e => (Err ("failed to create request: " +:+ e), w)
      | None =>
          let req := new_request c ctx method (request_url c path) reqBody in
          let (rt, s') := http_Do (http_Timeout (httpClient c)) req (server w) in
          (classify rt, {| server := s'; sent := sent w ++ [req] |})
      end
  end.
Proof.
  unfold doRequest, bind, ret, Do.
  destruct (marshal_body body) as [reqBody|e]; [|reflexivity].
  destruct (http_NewRequest_error method (request_url c path)); [reflexivity|].
  cbn. destruct (http_Do _ _ _). reflexivity.
Qed.

(** A call that comes back without error has put exactly one request on
    the wire. *)
Lemma doRequest_Ok_sent c ctx method path body w respBody w' :
  doRequest c ctx method path body w = (Ok respBody, w') ->
  exists reqBody,
    marshal_body body = Ok reqBody /\
    sent w' = sent w ++ [new_request c ctx method (request_url c path) reqBody].
Proof.
  rewrite doRequest_unfold.
  destruct (marshal_body body) as [reqBody|e]; [|discriminate].
  destruct (http_NewRequest_error method (request_url c path)); [discriminate|].
  cbn. destruct (http_Do _ _ _) as [rt s']. intros [= _ <-].
  exists reqBody. split; reflexivity.
Qed.

(** Any call puts at most one request on the wire. *)
Lemma doRequest_sent c ctx method path body w :
  sent (snd (doRequest c ctx method path body w)) = sent w \/
  exists reqBody,
    sent (snd (doRequest c ctx method path body w)) =
    sent w ++ [new_request c ctx method (request_url c path) reqBody].
Proof.
  rewrite doRequest_unfold.
  destruct (marshal_body body) as [reqBody|e]; [|left; reflexivity].
  destruct (http_NewRequest_error method (request_url c path)); [left; reflexivity|].
  cbn. destruct (http_Do _ _ _) as [rt s']. right. exists reqBody. reflexivity.
Qed.

Lemma GetUser_unfold c ctx id w :
  GetUser c ctx id w =
  let (r, w') := doRequest c ctx "GET" ("/users/" +:+ id) None w in
  (match r with
   | Err e => Err e
   | Ok body =>
       match json_Unmarshal_UserResponse body with
       | Err e => Err ("failed to unmarshal user response: " +:+ e)
       | Ok resp => Ok (Data resp)
       end
   end, w').
Proof.
  unfold GetUser, bind, ret.
  destruct (doRequest _ _ _ _ _ _) as [[body|e] w']; [|reflexivity].
  destruct (json_Unmarshal_UserResponse body); reflexivity.
Qed.

Lemma GetUser_Ok_sent c ctx id w user w' :
  GetUser c ctx id w = (Ok user, w') ->
  sent w' = sent w ++ [new_request c ctx "GET" (request_url c ("/users/" +:+ id)) None].
Proof.
  rewrite GetUser_unfold.
  destruct (doRequest _ _ _ _ _ _) as [[body|e] w1] eqn:Hdo; [|discriminate].
  intros [= _ <-].
  apply doRequest_Ok_sent in Hdo as (reqBody & [= <-] & ->). reflexivity.
Qed.

Lemma UpdateUserRole_nil_sent c ctx id newRole w w' :
  UpdateUserRole c ctx id newRole w = (None, w') ->
  exists jsonBody,
    json_Marshal (BodyUpdateUserRole {| NewRoleName := newRole |}) = Ok jsonBody /\
    sent w' = sent w ++ [new_request c ctx "PATCH"
                           (request_url c ("/users/" +:+ id +:+ "/role"))
                           (Some jsonBody)].
Proof.
  unfold UpdateUserRole, bind, ret.
  destruct (doRequest _ _ _ _ _ _) as [[body|e] w1] eqn:Hdo; [|discriminate].
  cbn. intros [= <-].
  apply doRequest_Ok_sent in Hdo as (reqBody & Hm & ->).
  unfold marshal_body in Hm.
  destruct (json_Marshal _) as [jsonBody|e]; [|discriminate].
  injection Hm as <-. exists jsonBody. split; reflexivity.
Qed.

(** C6. For a response with status at least 400 [doRequest] tries to
    decode the body as an [ErrorResponse]: when that succeeds the error
    reads [API error: <code> - <message>] with the server's code and
    message, when it fails the error reads [HTTP <status>: <body>] with
    the numeric status and the raw body; a response with a status below
    400 is returned as its raw body, without error. *)
Theorem doRequest_classifies_status c ctx method path body reqBody w
    status respBody s' :
  marshal_body body = Ok reqBody ->
  http_NewRequest_error method (request_url c path) = None ->
  http_Do (http_Timeout (httpClient c))
    (new_request c ctx method (request_url c path) reqBody) (server w)
    = (Response status respBody, s') ->
  let r := fst (doRequest c ctx method path body w) in
  (400 <= status -> forall e,
     json_Unmarshal_ErrorResponse respBody = Ok e ->
     r = Err ("API error: " +:+ Code e +:+ " - " +:+ Message e)) /\
  (400 <= status -> forall d,
     json_Unmarshal_ErrorResponse respBody = Err d ->
     r = Err ("HTTP " +:+ pretty status +:+ ": " +:+ respBody)) /\
  (status < 400 -> r = Ok respBody).
Proof.
  intros Hm Hn Hdo r. subst r.
  rewrite doRequest_unfold, Hm, Hn. cbn. rewrite Hdo. cbn.
  repeat split.
  - intros Hs e He. destruct (Z.leb_spec 400 status); [|lia].
    rewrite He. reflexivity.
  - intros Hs d Hd. destruct (Z.leb_spec 400 status); [|lia].
    rewrite Hd. reflexivity.
  - intros Hs. destruct (Z.leb_spec 400 status); [lia|]. reflexivity.
Qed.

(** C10. [GetUserByEmail] is [GetUser]: for every context, identifier and
    world both return the same result and leave the same world, and the
    one request either of them may send is [GET /users/{s}]. *)
Theorem GetUserByEmail_is_GetUser c ctx s w :
  GetUserByEmail c ctx s w = GetUser c ctx s w /\
  sent (snd (GetUserByEmail c ctx s w)) =
    match http_NewRequest_error "GET" (baseURL c +:+ "/api/v1" +:+ "/users/" +:+ s) with
    | Some _ => sent w
    | None =>
        sent w ++ [{| req_ctx := ctx; Method := "GET";
                      URL := baseURL c +:+ "/api/v1" +:+ "/users/" +:+ s;
                      Header := set_headers c; ReqBody := None |}]
    end.
Proof.
  split; [reflexivity|].
  unfold GetUserByEmail. rewrite GetUser_unfold, doRequest_unfold. cbn.
  unfold request_url.
  destruct (http_NewRequest_error _ _); [reflexivity|].
  cbn. destruct (http_Do _ _ _). reflexivity.
Qed.

End ClientFacts.

(** ** Diagnostics *)
Section DiagFacts.

Lemma HasError_Append1_error ds d :
  is_error d = true -> HasError (Append1 ds d) = true.
Proof.
  intros Hd. unfold Append1, HasError. case_decide as Hin.
  - apply existsb_exists. exists d. split; [by apply list_elem_of_In|done].
  - rewrite existsb_app. cbn. rewrite Hd. by rewrite orb_true_r.
Qed.

Lemma HasError_AddError ds s d : HasError (AddError ds s d) = true.
Proof. by apply HasError_Append1_error. Qed.

Lemma HasError_AddAttributeError ds p s d :
  HasError (AddAttributeError ds p s d) = true.
Proof. by apply HasError_Append1_error. Qed.

Lemma elem_of_Append1 ds d : d ∈ Append1 ds d.
Proof.
  unfold Append1. case_decide; [done|]. apply elem_of_app. right.
  by apply list_elem_of_singleton.
Qed.

Lemma elem_of_Append1_inv ds d d' : d' ∈ Append1 ds d -> d' ∈ ds \/ d' = d.
Proof.
  unfold Append1. case_decide; [by left|].
  intros [?|Hd]%elem_of_app; [by left|right].
  by apply list_elem_of_singleton in Hd.
Qed.

Lemma HasError_Append1_mono ds d :
  HasError ds = true -> HasError (Append1 ds d) = true.
Proof.
  unfold Append1, HasError. case_decide; [done|].
  intros Hds. rewrite existsb_app, Hds. done.
Qed.

End DiagFacts.

(** ** The resource reconciler *)
Section ResourceFacts.
Context `{client.Platform}.
Import provider provider.UserResource.

(** Runs a method down to the outcome of its next client call. *)
Ltac next_call :=
  unfold client.bind, client.ret;
  match goal with
  | |- context [client.GetUser ?c ?x ?i ?w] =>
      destruct (client.GetUser c x i w) as [[?user|?err] ?w] eqn:?Hget
  | |- context [client.CreateUser ?c ?x ?q ?w] =>
      destruct (client.CreateUser c x q w) as [[?user|?err] ?w] eqn:?Hcreate
  | |- context [client.UpdateUserRole ?c ?x ?i ?n ?w] =>
      destruct (client.UpdateUserRole c x i n w) as [[?err|] ?w] eqn:?Hupdate
  | |- context [client.DeleteUser ?c ?x ?i ?w] =>
      destruct (client.DeleteUser c x i w) as [[?err|] ?w] eqn:?Hdelete
  end; cbn [fst snd Diagnostics State resp_AddError].

(** C3. A successful [Update] (one that reports no error) has called
    [UpdateUserRole] and then [GetUser], in this order and nothing else;
    the state it stores is the plan data with [updated_at] alone replaced
    by the re-fetched record's time stamp: [id], [email], [role],
    [first_name], [last_name], [is_pending], [created_at] and
    [invite_accept_url] are those of the plan. *)
Theorem Update_refreshes_only_updated_at r ctx req resp w :
  let data := got_data (up_Plan req) in
  let id := types.ValueString (ID data) in
  let out := Update r ctx req resp w in
  HasError (Diagnostics (fst out)) = false ->
  exists w1 jsonBody user,
    client.UpdateUserRole (client r) ctx id (types.ValueString (Role data)) w
      = (None, w1) /\
    client.GetUser (client r) ctx id w1 = (Ok user, snd out) /\
    client.sent (snd out) = client.sent w ++
      [client.new_request (client r) ctx "PATCH"
         (client.request_url (client r) ("/users/" +:+ id +:+ "/role"))
         (Some jsonBody);
       client.new_request (client r) ctx "GET"
         (client.request_url (client r) ("/users/" +:+ id)) None] /\
    State (fst out) =
      <["updated_at" :=
          AString (types.StringValue
                     (client.Format_RFC3339 (client.UpdatedAt user)))]>
        (State_Set data) /\
    State (fst out) !! "updated_at" =
      Some (AString (types.StringValue
                       (client.Format_RFC3339 (client.UpdatedAt user)))) /\
    State (fst out) !! "id" = Some (AString (ID data)) /\
    State (fst out) !! "email" = Some (AString (Email data)) /\
    State (fst out) !! "role" = Some (AString (Role data)) /\
    State (fst out) !! "first_name" = Some (AString (FirstName data)) /\
    State (fst out) !! "last_name" = Some (AString (LastName data)) /\
    State (fst out) !! "is_pending" = Some (ABool (IsPending data)) /\
    State (fst out) !! "created_at" = Some (AString (CreatedAt data)) /\
    State (fst out) !! "invite_accept_url" = Some (AString (InviteAcceptURL data)).
Proof.
  intros data id out. subst out. unfold Update. fold data. fold id.
  destruct (HasError (Diagnostics (resp_Append resp _))) eqn:Hpre.
  { unfold client.ret. cbn [fst]. rewrite Hpre. discriminate. }
  next_call.
  { rewrite HasError_AddError. discriminate. }
  next_call.
  2:{ rewrite HasError_AddError. discriminate. }
  intros _.
  destruct (UpdateUserRole_nil_sent _ _ _ _ _ _ Hupdate) as (jsonBody & _ & Hs1).
  pose proof (GetUser_Ok_sent _ _ _ _ _ _ Hget) as Hs2.
  exists w0, jsonBody, user.
  split; [first [reflexivity | exact Hupdate]|].
  split; [first [reflexivity | exact Hget]|].
  split. { rewrite Hs2, Hs1, <- app_assoc. reflexivity. }
  repeat split; reflexivity.
Qed.

(** C4, as the code has it. A successful [Create] (one that reports no
    error) has called [CreateUser] with the planned email and role, and
    the state it stores takes [id], [is_pending], [created_at],
    [updated_at], [first_name], [last_name] and [invite_accept_url] from
    the response (null for a missing name or an empty URL) and keeps the
    planned [email]; [role] is the role of the response when the response
    carries one, and the planned role when the response's role is empty. *)
Theorem Create_populates_state r ctx req resp w :
  let data := got_data (cr_Plan req) in
  let out := Create r ctx req resp w in
  HasError (Diagnostics (fst out)) = false ->
  exists user,
    client.CreateUser (client r) ctx
      {| client.cr_Email := types.ValueString (Email data);
         client.cr_Role := types.ValueString (Role data);
         client.cr_FirstName := "";
         client.cr_LastName := "" |} w = (Ok user, snd out) /\
    State (fst out) !! "id" = Some (AString (types.StringValue (client.ID user))) /\
    State (fst out) !! "is_pending" =
      Some (ABool (types.BoolValue (client.IsPending user))) /\
    State (fst out) !! "created_at" =
      Some (AString (types.StringValue
                       (client.Format_RFC3339 (client.CreatedAt user)))) /\
    State (fst out) !! "updated_at" =
      Some (AString (types.StringValue
                       (client.Format_RFC3339 (client.UpdatedAt user)))) /\
    State (fst out) !! "first_name" =
      Some (AString (match client.FirstName user with
                     | Some s => types.StringValue s
                     | None => types.StringNull
                     end)) /\
    State (fst out) !! "last_name" =
      Some (AString (match client.LastName user with
                     | Some s => types.StringValue s
                     | None => types.StringNull
                     end)) /\
    State (fst out) !! "invite_accept_url" =
      Some (AString (if decide (client.InviteAcceptUrl user = "")
                     then types.StringNull
                     else types.StringValue (client.InviteAcceptUrl user))) /\
    State (fst out) !! "email" = Some (AString (Email data)) /\
    (client.Role user <> "" ->
     State (fst out) !! "role" =
       Some (AString (types.StringValue (client.Role user)))) /\
    (client.Role user = "" ->
     State (fst out) !! "role" = Some (AString (Role data))).
Proof.
  intros data out. subst out. unfold Create. fold data.
  destruct (HasError (Diagnostics (resp_Append resp _))) eqn:Hpre.
  { unfold client.ret. cbn [fst]. rewrite Hpre. discriminate. }
  next_call.
  2:{ rewrite HasError_AddError. discriminate. }
  intros _. exists user.
  split; [reflexivity|].
  repeat (split; [reflexivity|]).
  split; intros Hrole; cbn; case_decide; done.
Qed.

(** The object of the resource schema with every attribute null is what
    [State_Set] writes for a model whose fields are all null. *)
Lemma null_object_Schema :
  null_object Schema =
  State_Set {| ID := types.StringNull; Email := types.StringNull;
               Role := types.StringNull; FirstName := types.StringNull;
               LastName := types.StringNull; IsPending := types.BoolNull;
               CreatedAt := types.StringNull; UpdatedAt := types.StringNull;
               InviteAcceptURL := types.StringNull |}.
Proof. reflexivity. Qed.

(** C8. [ImportState] takes the import identifier as it is (an email
    address by convention) and resolves it by one [GetUser] call: the
    world it leaves is the one that call leaves. When the call succeeds
    it has sent the single request [GET /users/{identifier}], no
    diagnostic is added, and [id] and [email] of the state are those of
    the resolved record; nothing else of the record reaches the state.
    Started from the null state (what an import is handed), the state
    becomes the object of the schema in which the seven other attributes
    are null; started from an object, every other attribute is as it
    was. *)
Theorem ImportState_seeds_id_and_email r ctx req resp w :
  let out := ImportState r ctx req resp w in
  snd out = snd (client.GetUser (client r) ctx (imp_ID req) w) /\
  forall user w',
    client.GetUser (client r) ctx (imp_ID req) w = (Ok user, w') ->
    client.sent (snd out) = client.sent w ++
      [client.new_request (client r) ctx "GET"
         (client.request_url (client r) ("/users/" +:+ imp_ID req)) None] /\
    Diagnostics (fst out) = Diagnostics resp /\
    State (fst out) !! "id" =
      Some (AString (types.StringValue (client.ID user))) /\
    State (fst out) !! "email" =
      Some (AString (types.StringValue (client.Email user))) /\
    (State resp = ∅ ->
     State (fst out) =
       State_Set {| ID := types.StringValue (client.ID user);
                    Email := types.StringValue (client.Email user);
                    Role := types.StringNull;
                    FirstName := types.StringNull;
                    LastName := types.StringNull;
                    IsPending := types.BoolNull;
                    CreatedAt := types.StringNull;
                    UpdatedAt := types.StringNull;
                    InviteAcceptURL := types.StringNull |}) /\
    (State resp <> ∅ ->
     forall k, k <> "id" -> k <> "email" ->
       State (fst out) !! k = State resp !! k).
Proof.
  intros out. subst out. unfold ImportState.
  next_call; (split; [reflexivity|]); intros u w' [= <- <-].
  pose proof (GetUser_Ok_sent _ _ _ _ _ _ Hget) as Hs.
  split; [exact Hs|].
  unfold SetAttribute.
  change (attr_type <$> Schema !! "id") with (Some StringAttribute).
  change (attr_type <$> Schema !! "email") with (Some StringAttribute).
  cbn [State Diagnostics].
  destruct (decide (<["id" := AString (types.StringValue (client.ID user))]>
                      (if decide (State resp = ∅) then null_object Schema
                       else State resp) = ∅)) as [Hempty|_].
  { exfalso. by apply insert_non_empty in Hempty. }
  split; [reflexivity|].
  split. { rewrite lookup_insert_ne by done. apply lookup_insert_eq. }
  split. { apply lookup_insert_eq. }
  split.
  - intros Hnull. destruct (decide (State resp = ∅)); [|contradiction].
    rewrite null_object_Schema. reflexivity.
  - intros Hobject k Hid Hemail.
    destruct (decide (State resp = ∅)); [contradiction|].
    rewrite !lookup_insert_ne by done. reflexivity.
Qed.

End ResourceFacts.

(** ** Failure of a client call *)
Section FailureFacts.
Context `{client.Platform}.
Import provider.

(** C5. In [Create], [Read], [Update], [Delete] and the data-source
    [Read], a client call that returns an error ends the method: the
    state of the response is the one the method was given, the world is
    the one the failed call left, and the diagnostics gain one error with
    summary [Client Error] whose detail ends with the error of the
    call. *)
Theorem client_failure_leaves_state_untouched op ctx resp w e w' :
  HasError (Append (Diagnostics resp) (lifecycle.read_diags op)) = false ->
  lifecycle.client_failure op ctx w e w' ->
  let out := lifecycle.run op ctx resp w in
  State (fst out) = State resp /\
  snd out = w' /\
  HasError (Diagnostics (fst out)) = true /\
  exists prefix,
    Diagnostics (fst out) =
      AddError (Append (Diagnostics resp) (lifecycle.read_diags op))
        "Client Error" (prefix +:+ e).
Proof.
  intros Hpre Hfail out. subst out.
  destruct op as [r req|r req|r req|r req|d req];
    cbn [lifecycle.read_diags] in Hpre |- *;
    cbn [lifecycle.client_failure] in Hfail;
    cbn [lifecycle.run].
  - unfold UserResource.Create. cbn [resp_Append Diagnostics]. rewrite Hpre.
    unfold client.bind, client.ret. rewrite Hfail. cbn.
    repeat split; [apply HasError_AddError|eauto].
  - unfold UserResource.Read. cbn [resp_Append Diagnostics]. rewrite Hpre.
    unfold client.bind, client.ret. rewrite Hfail. cbn.
    repeat split; [apply HasError_AddError|eauto].
  - unfold UserResource.Update. cbn [resp_Append Diagnostics]. rewrite Hpre.
    unfold client.bind, client.ret.
    destruct Hfail as [Hup|(w1 & Hup & Hget)]; rewrite Hup; [|rewrite Hget]; cbn;
      (repeat split; [apply HasError_AddError|eauto]).
  - unfold UserResource.Delete. cbn [resp_Append Diagnostics]. rewrite Hpre.
    unfold client.bind, client.ret. rewrite Hfail. cbn.
    repeat split; [apply HasError_AddError|eauto].
  - unfold UserDataSource.Read. cbn [resp_Append Diagnostics]. rewrite Hpre.
    unfold client.bind, client.ret.
    destruct Hfail as [[Hid Hget]|(Hid & Hemail & Hget)];
      rewrite Hid; [|rewrite Hemail]; cbn [andb negb]; rewrite Hget; cbn;
      (repeat split; [apply HasError_AddError|eauto]).
Qed.

End FailureFacts.

(** ** The data-source reader *)
Section DataSourceFacts.
Context `{client.Platform}.
Import provider provider.UserDataSource.

Lemma not_elem_of_no_error (ds : diag.Diagnostics) d :
  HasError ds = false -> is_error d = true -> d ∉ ds.
Proof.
  intros Hds Hd Hin.
  assert (HasError ds = true); [|congruence].
  apply existsb_exists. exists d. split; [by apply list_elem_of_In|done].
Qed.

(** With [id] set, [Read] is a lookup by id, whatever [email] is. *)
Lemma Read_by_id d ctx req resp w :
  let data := got_data (Config req) in
  let pre := resp_Append resp (got_diags (Config req)) in
  HasError (Diagnostics pre) = false ->
  types.IsNull (ID data) = false ->
  Read d ctx req resp w =
  (let (r, w') := client.GetUser (client d) ctx (types.ValueString (ID data)) w in
   (match r with
    | Err e =>
        resp_AddError pre "Client Error" ("Unable to read user, got error: " +:+ e)
    | Ok user =>
        {| Diagnostics := Diagnostics pre; State := State_Set (map_user user) |}
    end, w')).
Proof.
  intros data pre Hpre Hid. unfold Read. fold data. fold pre.
  rewrite Hpre, Hid. cbn [andb negb]. unfold client.bind, client.ret.
  destruct (client.GetUser _ _ _ _) as [[user|e] w']; reflexivity.
Qed.

(** The provider sends the same request for an identifier given as [id]
    and for the same identifier given as [email]: nothing in the outcome
    tells the two kinds apart. *)
Lemma Read_by_id_by_email_same d ctx s resp w rest_id rest_email :
  types.IsNull (ID rest_id) = false -> types.ValueString (ID rest_id) = s ->
  types.IsNull (ID rest_email) = true ->
  types.IsNull (Email rest_email) = false ->
  types.ValueString (Email rest_email) = s ->
  Read d ctx {| Config := {| got_diags := []; got_data := rest_id |} |} resp w =
  Read d ctx {| Config := {| got_diags := []; got_data := rest_email |} |} resp w.
Proof.
  intros Hid <- Hnull Hemail Hs. unfold Read. cbn [Config got_data got_diags].
  destruct (HasError _); [reflexivity|].
  rewrite Hid, Hnull, Hemail, Hs. reflexivity.
Qed.

(** C2, as the code has it. When the configuration has neither [id] nor
    [email] (both null), [Read] reports the error [Missing Attribute],
    sends nothing (the world is unchanged) and writes no state. *)
Theorem Read_requires_id_or_email d ctx req resp w :
  let data := got_data (Config req) in
  HasError (Diagnostics (resp_Append resp (got_diags (Config req)))) = false ->
  types.IsNull (ID data) = true ->
  types.IsNull (Email data) = true ->
  let out := Read d ctx req resp w in
  snd out = w /\
  State (fst out) = State resp /\
  missing_attribute ∈ Diagnostics (fst out) /\
  HasError (Diagnostics (fst out)) = true.
Proof.
  intros data Hpre Hid Hemail out. subst out. unfold Read. fold data.
  rewrite Hpre, Hid, Hemail. cbn.
  repeat split; [apply elem_of_Append1|apply HasError_AddError].
Qed.

(** C9. When both [id] and [email] are set, [Read] raises no validation
    error ([Missing Attribute] is not reported); its one client call is
    [GetUser] with the id, so the world it leaves is the one that call
    leaves, and the outcome is the same for every other value of [email];
    when the call succeeds the single request sent is [GET /users/{id}]
    and the [email] of the state is the one the server returned. *)
Theorem Read_with_id_and_email_looks_up_by_id d ctx req resp w :
  let data := got_data (Config req) in
  let pre := resp_Append resp (got_diags (Config req)) in
  HasError (Diagnostics pre) = false ->
  types.IsNull (ID data) = false ->
  types.IsNull (Email data) = false ->
  let out := Read d ctx req resp w in
  let call := client.GetUser (client d) ctx (types.ValueString (ID data)) w in
  (missing_attribute ∉ Diagnostics (fst out)) /\
  snd out = snd call /\
  (forall req',
     got_diags (Config req') = got_diags (Config req) ->
     ID (got_data (Config req')) = ID data ->
     Read d ctx req' resp w = out) /\
  (forall e, fst call = Err e ->
     fst out = resp_AddError pre "Client Error"
                 ("Unable to read user, got error: " +:+ e)) /\
  (forall user, fst call = Ok user ->
     client.sent (snd out) = client.sent w ++
       [client.new_request (client d) ctx "GET"
          (client.request_url (client d)
             ("/users/" +:+ types.ValueString (ID data))) None] /\
     Diagnostics (fst out) = Diagnostics pre /\
     State (fst out) !! "email" =
       Some (AString (types.StringValue (client.Email user)))).
Proof.
  intros data pre Hpre Hid Hemail out call. subst out call.
  split.
  { rewrite Read_by_id by assumption. fold data. fold pre.
    destruct (client.GetUser _ _ _ _) as [[user|e] w']; cbn [fst].
    - by apply not_elem_of_no_error.
    - cbn. intros [Hin| [=]]%elem_of_Append1_inv.
      by apply (not_elem_of_no_error _ _ Hpre) in Hin. }
  split.
  { rewrite Read_by_id by assumption. fold data.
    destruct (client.GetUser _ _ _ _) as [r w']. reflexivity. }
  split.
  { intros req' Hdiags Hid'.
    rewrite (Read_by_id d ctx req), (Read_by_id d ctx req'); fold data.
    - rewrite Hid'. unfold resp_Append. rewrite Hdiags. reflexivity.
    - unfold resp_Append in *. rewrite Hdiags. exact Hpre.
    - rewrite Hid'. exact Hid.
    - exact Hpre.
    - exact Hid. }
  split.
  { intros e He. rewrite Read_by_id by assumption. fold data.
    destruct (client.GetUser _ _ _ _) as [r w']. cbn in He |- *. by subst r. }
  intros user Hu. rewrite Read_by_id by assumption. fold data. fold pre.
  destruct (client.GetUser _ _ _ _) as [r w'] eqn:Hget. cbn in Hu. subst r.
  cbn [fst snd Diagnostics State].
  split; [exact (GetUser_Ok_sent _ _ _ _ _ _ Hget)|].
  split; reflexivity.
Qed.

End DataSourceFacts.

(** ** Provider bootstrap *)
Section ConfigureFacts.
Context `{client.Platform}.
Import provider provider.N8nCloudProvider.

Lemma Getenv_env_string env key :
  Getenv env key = default "" (env_string env key).
Proof.
  unfold Getenv, env_string. destruct (env !! key) as [[|a s]|]; reflexivity.
Qed.

(** What the code computes for a string knob that is not unknown is the
    precedence of the specification. *)
Lemma string_knob_precedence env key (v : types.String) :
  types.IsUnknown v = false ->
  (if negb (types.IsNull v) then types.ValueString v else Getenv env key) =
  default "" (precedence (explicit_string v) (env_string env key) None).
Proof.
  intros Hv. destruct v as [| |s]; [|discriminate|reflexivity].
  cbn. rewrite Getenv_env_string. by destruct (env_string env key).
Qed.

Lemma timeout_knob_precedence (v : types.Int64) :
  v <> types.Int64Unknown ->
  precedence (explicit_int64 v) None (Some 30) =
  Some (if negb (types.Int64_IsNull v) then types.ValueInt64 v else 30).
Proof. intros Hv. destruct v; [reflexivity|done|reflexivity]. Qed.

(** An unknown key or URL is reported and ends [Configure] before
    anything is resolved. *)
Lemma Configure_unknown_value env req resp :
  let data := got_data (Config req) in
  HasError (Append (cfg_Diagnostics resp) (got_diags (Config req))) = false ->
  types.IsUnknown (APIKey data) = true \/ types.IsUnknown (InstanceURL data) = true ->
  let out := Configure env req resp in
  HasError (cfg_Diagnostics out) = true /\
  DataSourceData out = DataSourceData resp /\
  ResourceData out = ResourceData resp.
Proof.
  intros data Hpre Hunknown out. subst out. unfold Configure. fold data.
  cbn [with_diags cfg_Diagnostics]. rewrite Hpre.
  destruct (types.IsUnknown (APIKey data)) eqn:Hkey;
    destruct (types.IsUnknown (InstanceURL data)) eqn:Hurl;
    cbn [with_diags cfg_Diagnostics];
    rewrite ?HasError_AddAttributeError;
    cbn [with_diags cfg_Diagnostics DataSourceData ResourceData];
    rewrite ?HasError_AddAttributeError;
    try (split; [reflexivity|split; reflexivity]).
  destruct Hunknown; discriminate.
Qed.

(** C7. [Configure] resolves [api_key] and [instance_url] as explicit
    configuration value, else environment variable ([N8N_API_KEY],
    [N8N_INSTANCE_URL]), with no default, and [timeout] as explicit
    configuration value, else 30 seconds. When the resolved key or URL is
    empty an error diagnostic is produced and no client is published;
    otherwise the client is built by [NewClient] from exactly the
    resolved values and published for data sources and resources. (A
    time-out that is unknown reaches [NewClient] as zero, which it
    replaces by its own default of 30 seconds.) *)
Theorem Configure_resolves_by_precedence env req resp :
  let data := got_data (Config req) in
  let pre := Append (cfg_Diagnostics resp) (got_diags (Config req)) in
  HasError pre = false ->
  types.IsUnknown (APIKey data) = false ->
  types.IsUnknown (InstanceURL data) = false ->
  let apiKey :=
    default "" (precedence (explicit_string (APIKey data))
                  (env_string env "N8N_API_KEY") None) in
  let instanceURL :=
    default "" (precedence (explicit_string (InstanceURL data))
                  (env_string env "N8N_INSTANCE_URL") None) in
  let out := Configure env req resp in
  (apiKey = "" \/ instanceURL = "" ->
     HasError (cfg_Diagnostics out) = true /\
     DataSourceData out = DataSourceData resp /\
     ResourceData out = ResourceData resp) /\
  (apiKey <> "" -> instanceURL <> "" ->
   forall timeout,
     (Timeout data <> types.Int64Unknown /\
      precedence (explicit_int64 (Timeout data)) None (Some 30) = Some timeout) \/
     (Timeout data = types.Int64Unknown /\ timeout = 0) ->
     exists cl,
       client.NewClient {| client.BaseURL := instanceURL;
                           client.APIKey := apiKey;
                           client.Timeout := mul64 timeout Second |} = Ok cl /\
       out = {| cfg_Diagnostics := pre;
                DataSourceData := Some cl;
                ResourceData := Some cl |} /\
       client.baseURL cl = instanceURL /\
       client.apiKey cl = apiKey /\
       client.http_Timeout (client.httpClient cl) =
         if decide (mul64 timeout Second = 0) then client.defaultTimeout
         else mul64 timeout Second).
Proof.
  intros data pre Hpre Hkey Hurl apiKey instanceURL out.
  subst out. unfold Configure. fold data.
  cbn [with_diags cfg_Diagnostics DataSourceData ResourceData]. fold pre.
  rewrite Hpre, Hkey, Hurl. cbn [with_diags cfg_Diagnostics]. rewrite Hpre.
  rewrite (string_knob_precedence env "N8N_API_KEY" _ Hkey).
  rewrite (string_knob_precedence env "N8N_INSTANCE_URL" _ Hurl).
  fold apiKey. fold instanceURL.
  split.
  - intros Hempty.
    destruct (decide (apiKey = "")) as [Ha|Ha];
      destruct (decide (instanceURL = "")) as [Hu|Hu];
      cbn [with_diags cfg_Diagnostics DataSourceData ResourceData].
    + rewrite !HasError_AddAttributeError. cbn. by rewrite HasError_AddAttributeError.
    + rewrite !HasError_AddAttributeError. cbn. by rewrite HasError_AddAttributeError.
    + rewrite !HasError_AddAttributeError. cbn. by rewrite HasError_AddAttributeError.
    + tauto.
  - intros Ha Hu timeout Ht.
    assert ((if negb (types.Int64_IsNull (Timeout data))
             then types.ValueInt64 (Timeout data) else 30) = timeout) as ->.
    { destruct Ht as [[Hknown Ht]|[-> ->]]; [|reflexivity].
      rewrite timeout_knob_precedence in Ht by assumption. congruence. }
    destruct (decide (apiKey = "")) as [|_]; [contradiction|].
    destruct (decide (instanceURL = "")) as [|_]; [contradiction|].
    cbn [with_diags cfg_Diagnostics DataSourceData ResourceData].
    rewrite Hpre. unfold client.NewClient.
    cbn [client.BaseURL client.APIKey client.Timeout].
    destruct (decide (instanceURL = "")) as [|_]; [contradiction|].
    destruct (decide (apiKey = "")) as [|_]; [contradiction|].
    eexists. split; [reflexivity|].
    cbn [client.baseURL client.apiKey client.httpClient client.http_Timeout].
    split; [reflexivity|]. split; [reflexivity|]. split; reflexivity.
Qed.

End ConfigureFacts.

(** * Examples on the concrete platform *)

(** A status of 502 with a body that is not JSON, and a status of 200. *)
Example doRequest_raw_status_example :
  fst (client.doRequest demo.the_client demo.ctx "GET" "/users/u-9" None
         (demo.world [client.Response 502 "Bad Gateway"]))
  = Err "HTTP 502: Bad Gateway".
Proof. reflexivity. Qed.

Example doRequest_success_example :
  fst (client.doRequest demo.the_client demo.ctx "GET" "/users/u-1" None
         (demo.world [client.Response 200 demo.alice_json]))
  = Ok demo.alice_json.
Proof. reflexivity. Qed.

Lemma doRequest_classifies_status_witness :
  let w := demo.world [client.Response 404 demo.not_found_json] in
  let r := fst (client.doRequest demo.the_client demo.ctx "GET" "/users/u-9" None w) in
  client.marshal_body None = Ok None /\
  client.http_NewRequest_error "GET"
    (client.request_url demo.the_client "/users/u-9") = None /\
  client.http_Do (client.http_Timeout (client.httpClient demo.the_client))
    (client.new_request demo.the_client demo.ctx "GET"
       (client.request_url demo.the_client "/users/u-9") None)
    (client.server w) = (client.Response 404 demo.not_found_json, []) /\
  400 <= 404 /\
  r = Err "API error: 404 - Not Found".
Proof.
  cbv zeta. split; [reflexivity|]. split; [reflexivity|].
  split; [reflexivity|]. split; [lia|].
  pose proof (doRequest_classifies_status demo.the_client demo.ctx "GET"
                "/users/u-9" None None
                (demo.world [client.Response 404 demo.not_found_json])
                404 demo.not_found_json [] eq_refl eq_refl eq_refl) as [Hapi _].
  apply (Hapi ltac:(lia)
           {| client.Code := "404"; client.Message := "Not Found"; client.Hint := "" |}).
  reflexivity.
Defined.

Lemma Update_refreshes_only_updated_at_witness :
  let req := {| provider.UserResource.up_Plan := got demo_stored |} in
  let w := demo.world [client.Response 200 ""; client.Response 200 demo.alice_json] in
  let out := provider.UserResource.Update demo_resource demo.ctx req demo_prior_resp w in
  HasError (provider.Diagnostics (fst out)) = false /\
  length (client.sent (snd out)) = 2%nat /\
  provider.State (fst out) !! "role" =
    Some (provider.AString (types.StringValue "global:admin")) /\
  provider.State (fst out) !! "is_pending" =
    Some (provider.ABool (types.BoolValue false)).
Proof.
  cbv zeta.
  assert (Hok : HasError (provider.Diagnostics (fst
            (provider.UserResource.Update demo_resource demo.ctx
               {| provider.UserResource.up_Plan := got demo_stored |}
               demo_prior_resp
               (demo.world [client.Response 200 "";
                            client.Response 200 demo.alice_json])))) = false)
    by reflexivity.
  split; [exact Hok|].
  destruct (Update_refreshes_only_updated_at _ _ _ _ _ Hok)
    as (w1 & jsonBody & user & _ & _ & Hsent & _ & _ & _ & _ & Hrole & _ & _ & Hpending & _).
  split; [rewrite Hsent; reflexivity|].
  split; [exact Hrole|exact Hpending].
Defined.

(** C4, as stated, fails: the server answers the create call with a
    record that carries no role; the stored [role] is then the
    configured one, not the (empty) role of the response. *)
Lemma Create_keeps_configured_role_counterexample :
  let req := {| provider.UserResource.cr_Plan := got demo_plan |} in
  let w := demo.world [client.Response 200 demo.alice_without_role_json] in
  let out := provider.UserResource.Create demo_resource demo.ctx req demo.no_resp w in
  HasError (provider.Diagnostics (fst out)) = false /\
  fst (client.CreateUser demo.the_client demo.ctx
         {| client.cr_Email := "alice@example.com";
            client.cr_Role := "global:member";
            client.cr_FirstName := "";
            client.cr_LastName := "" |} w) = Ok demo.alice_without_role /\
  client.Role demo.alice_without_role = "" /\
  provider.State (fst out) !! "role" =
    Some (provider.AString (types.StringValue "global:member")) /\
  provider.State (fst out) !! "role" <>
    Some (provider.AString
            (types.StringValue (client.Role demo.alice_without_role))).
Proof. cbv zeta. repeat split; try reflexivity. discriminate. Qed.

Lemma Create_populates_state_witness :
  let req := {| provider.UserResource.cr_Plan := got demo_plan |} in
  let w := demo.world [client.Response 200 demo.alice_json] in
  let out := provider.UserResource.Create demo_resource demo.ctx req demo.no_resp w in
  HasError (provider.Diagnostics (fst out)) = false /\
  exists user,
    provider.State (fst out) !! "id" =
      Some (provider.AString (types.StringValue (client.ID user))) /\
    provider.State (fst out) !! "email" =
      Some (provider.AString (types.StringValue "alice@example.com")).
Proof.
  cbv zeta.
  assert (Hok : HasError (provider.Diagnostics (fst
            (provider.UserResource.Create demo_resource demo.ctx
               {| provider.UserResource.cr_Plan := got demo_plan |}
               demo.no_resp
               (demo.world [client.Response 200 demo.alice_json])))) = false)
    by reflexivity.
  split; [exact Hok|].
  destruct (Create_populates_state _ _ _ _ _ Hok)
    as (user & _ & Hid & _ & _ & _ & _ & _ & _ & Hemail & _).
  exists user. split; [exact Hid|exact Hemail].
Defined.

Lemma ImportState_seeds_id_and_email_witness :
  let req := {| provider.UserResource.imp_ID := "alice@example.com" |} in
  let w := demo.world [client.Response 200 demo.alice_json] in
  let out := provider.UserResource.ImportState demo_resource demo.ctx req demo.no_resp w in
  fst (client.GetUser demo.the_client demo.ctx "alice@example.com" w) = Ok demo.alice /\
  provider.State demo.no_resp = ∅ /\
  provider.State (fst out) !! "id" =
    Some (provider.AString (types.StringValue "u-1")) /\
  provider.State (fst out) !! "email" =
    Some (provider.AString (types.StringValue "alice@example.com")) /\
  provider.State (fst out) !! "role" = Some (provider.AString types.StringNull) /\
  provider.State (fst out) !! "is_pending" = Some (provider.ABool types.BoolNull) /\
  dom (provider.State (fst out)) = dom provider.UserResource.Schema /\
  length (client.sent (snd out)) = 1%nat.
Proof.
  cbv zeta. split; [reflexivity|]. split; [reflexivity|].
  destruct (ImportState_seeds_id_and_email demo_resource demo.ctx
              {| provider.UserResource.imp_ID := "alice@example.com" |}
              demo.no_resp
              (demo.world [client.Response 200 demo.alice_json])) as [_ Hok].
  destruct (Hok demo.alice _ eq_refl) as (Hsent & _ & Hid & Hemail & Hnull & _).
  split; [exact Hid|]. split; [exact Hemail|].
  rewrite (Hnull eq_refl).
  split; [reflexivity|]. split; [reflexivity|]. split; [reflexivity|].
  etransitivity; [exact (f_equal length Hsent)|reflexivity].
Defined.

(** An import into a state that already is an object replaces [id] and
    [email] and leaves the other attributes as they were; a path that is
    not an attribute of the schema is refused and nothing is written. *)
Example ImportState_into_object_example :
  let req := {| provider.UserResource.imp_ID := "alice@example.com" |} in
  let w := demo.world [client.Response 200 demo.alice_json] in
  let out := provider.UserResource.ImportState demo_resource demo.ctx req
               demo_prior_resp w in
  provider.State (fst out) !! "role" =
    Some (provider.AString (types.StringValue "global:member")) /\
  provider.State (fst out) !! "is_pending" =
    Some (provider.ABool (types.BoolValue false)).
Proof. cbv zeta. split; reflexivity. Qed.

Example SetAttribute_unknown_path_example :
  let out := provider.SetAttribute provider.UserResource.Schema demo.no_resp
               "nickname" "al" in
  provider.State out = ∅ /\
  map summary (provider.Diagnostics out) = ["State Write Error"].
Proof. cbv zeta. split; reflexivity. Qed.

Lemma client_failure_leaves_state_untouched_witness :
  let op := lifecycle.Update demo_resource
              {| provider.UserResource.up_Plan := got demo_stored |} in
  let w := demo.world [client.Response 200 "";
                       client.Response 503 "upstream down"] in
  let out := lifecycle.run op demo.ctx demo_prior_resp w in
  HasError (Append (provider.Diagnostics demo_prior_resp)
              (lifecycle.read_diags op)) = false /\
  lifecycle.client_failure op demo.ctx w "HTTP 503: upstream down" (snd out) /\
  provider.State (fst out) = provider.State demo_prior_resp /\
  HasError (provider.Diagnostics (fst out)) = true.
Proof.
  cbv zeta.
  set (op := lifecycle.Update demo_resource
               {| provider.UserResource.up_Plan := got demo_stored |}).
  set (w := demo.world [client.Response 200 "";
                        client.Response 503 "upstream down"]).
  assert (Hpre : HasError (Append (provider.Diagnostics demo_prior_resp)
                             (lifecycle.read_diags op)) = false)
    by reflexivity.
  assert (Hfail : lifecycle.client_failure op demo.ctx w
                    "HTTP 503: upstream down"
                    (snd (lifecycle.run op demo.ctx demo_prior_resp w))).
  { right. eexists. split; reflexivity. }
  split; [exact Hpre|]. split; [exact Hfail|].
  destruct (client_failure_leaves_state_untouched op demo.ctx demo_prior_resp
              w _ _ Hpre Hfail) as (Hstate & _ & Herr & _).
  split; [exact Hstate|exact Herr].
Defined.

Lemma Read_requires_id_or_email_witness :
  let req := {| provider.UserDataSource.Config :=
                  got (demo_config types.StringNull types.StringNull) |} in
  let w := demo.world [client.Response 200 demo.alice_json] in
  let out := provider.UserDataSource.Read demo_data_source demo.ctx req demo.no_resp w in
  HasError (provider.Diagnostics
              (provider.resp_Append demo.no_resp
                 (provider.got_diags (provider.UserDataSource.Config req)))) = false /\
  snd out = w /\
  provider.Diagnostics (fst out) = [missing_attribute].
Proof.
  cbv zeta. split; [reflexivity|].
  destruct (Read_requires_id_or_email demo_data_source demo.ctx
              {| provider.UserDataSource.Config :=
                   got (demo_config types.StringNull types.StringNull) |}
              demo.no_resp
              (demo.world [client.Response 200 demo.alice_json])
              eq_refl eq_refl eq_refl) as (Hworld & _).
  split; [exact Hworld|reflexivity].
Defined.

(** C2, as stated, fails: with both [id] and [email] supplied (so not
    exactly one of them) no diagnostic is reported and a request is
    sent. *)
Lemma Read_accepts_id_and_email_counterexample :
  let data := demo_config (types.StringValue "u-1")
                (types.StringValue "alice@example.com") in
  let req := {| provider.UserDataSource.Config := got data |} in
  let w := demo.world [client.Response 200 demo.alice_json] in
  let out := provider.UserDataSource.Read demo_data_source demo.ctx req demo.no_resp w in
  types.IsNull (provider.UserDataSource.ID data) = false /\
  types.IsNull (provider.UserDataSource.Email data) = false /\
  provider.Diagnostics (fst out) = [] /\
  map client.URL (client.sent (snd out)) =
    ["https://demo.app.n8n.cloud/api/v1/users/u-1"] /\
  snd out <> w.
Proof. cbv zeta. repeat split; try reflexivity. discriminate. Qed.

Lemma Read_with_id_and_email_looks_up_by_id_witness :
  let data := demo_config (types.StringValue "u-1")
                (types.StringValue "someone-else@example.com") in
  let req := {| provider.UserDataSource.Config := got data |} in
  let w := demo.world [client.Response 200 demo.alice_json] in
  let out := provider.UserDataSource.Read demo_data_source demo.ctx req demo.no_resp w in
  types.IsNull (provider.UserDataSource.ID data) = false /\
  types.IsNull (provider.UserDataSource.Email data) = false /\
  (missing_attribute ∉ provider.Diagnostics (fst out)) /\
  map client.URL (client.sent (snd out)) =
    ["https://demo.app.n8n.cloud/api/v1/users/u-1"] /\
  provider.State (fst out) !! "email" =
    Some (provider.AString (types.StringValue "alice@example.com")).
Proof.
  cbv zeta. split; [reflexivity|]. split; [reflexivity|].
  destruct (Read_with_id_and_email_looks_up_by_id demo_data_source demo.ctx
              {| provider.UserDataSource.Config :=
                   got (demo_config (types.StringValue "u-1")
                          (types.StringValue "someone-else@example.com")) |}
              demo.no_resp
              (demo.world [client.Response 200 demo.alice_json])
              eq_refl eq_refl eq_refl) as (Hvalid & _ & _ & _ & Hok).
  destruct (Hok demo.alice eq_refl) as (Hsent & _ & Hemail).
  split; [exact Hvalid|]. split; [rewrite Hsent; reflexivity|exact Hemail].
Defined.

(** C1. A lookup that the server answers with 404 and a structured error
    body: by id and by email the data source reports the same
    [Client Error], whose detail is the text of the server's error; the
    detail holds neither the identifier looked up nor the phrases the
    acceptance test of the data source expects
    ([User with ID ... not found], [User with email ... not found]). *)
Theorem Read_not_found_detail_lacks_identifier :
  let by_id := {| provider.UserDataSource.Config :=
                    got (demo_config (types.StringValue "non-existent-id")
                           types.StringNull) |} in
  let by_email := {| provider.UserDataSource.Config :=
                       got (demo_config types.StringNull
                              (types.StringValue "non-existent@example.com")) |} in
  let w := demo.world [client.Response 404 demo.not_found_json] in
  let out_id := provider.UserDataSource.Read demo_data_source demo.ctx by_id demo.no_resp w in
  let out_email := provider.UserDataSource.Read demo_data_source demo.ctx by_email demo.no_resp w in
  let detail := "Unable to read user, got error: API error: 404 - Not Found" in
  map client.URL (client.sent (snd out_id)) =
    ["https://demo.app.n8n.cloud/api/v1/users/non-existent-id"] /\
  map client.URL (client.sent (snd out_email)) =
    ["https://demo.app.n8n.cloud/api/v1/users/non-existent@example.com"] /\
  provider.Diagnostics (fst out_id) = [NewErrorDiagnostic "Client Error" detail] /\
  provider.Diagnostics (fst out_email) = [NewErrorDiagnostic "Client Error" detail] /\
  contains detail "non-existent-id" = false /\
  contains detail "non-existent@example.com" = false /\
  contains detail ("User with ID " +:+ quote "non-existent-id" +:+ " not found") = false /\
  contains detail ("User with email " +:+ quote "non-existent@example.com" +:+ " not found")
    = false.
Proof. cbv zeta. repeat split; reflexivity. Qed.

Lemma Configure_resolves_by_precedence_witness :
  let req := {| provider.N8nCloudProvider.Config := got demo_provider_config |} in
  let out := provider.N8nCloudProvider.Configure demo_env req demo_configure_resp in
  HasError (Append (provider.N8nCloudProvider.cfg_Diagnostics demo_configure_resp)
              (provider.got_diags (provider.N8nCloudProvider.Config req))) = false /\
  types.IsUnknown (provider.N8nCloudProvider.APIKey demo_provider_config) = false /\
  types.IsUnknown (provider.N8nCloudProvider.InstanceURL demo_provider_config) = false /\
  default "" (precedence
                (explicit_string (provider.N8nCloudProvider.APIKey demo_provider_config))
                (env_string demo_env "N8N_API_KEY") None) = "cfg-key" /\
  default "" (precedence
                (explicit_string (provider.N8nCloudProvider.InstanceURL demo_provider_config))
                (env_string demo_env "N8N_INSTANCE_URL") None)
    = "https://env.app.n8n.cloud" /\
  precedence (explicit_int64 (provider.N8nCloudProvider.Timeout demo_provider_config))
    None (Some 30) = Some 30 /\
  exists cl,
    provider.N8nCloudProvider.DataSourceData out = Some cl /\
    provider.N8nCloudProvider.ResourceData out = Some cl /\
    client.baseURL cl = "https://env.app.n8n.cloud" /\
    client.apiKey cl = "cfg-key" /\
    client.http_Timeout (client.httpClient cl) = 30000000000.
Proof.
  cbv zeta. do 6 (split; [reflexivity|]).
  destruct (Configure_resolves_by_precedence demo_env
              {| provider.N8nCloudProvider.Config := got demo_provider_config |}
              demo_configure_resp eq_refl eq_refl eq_refl) as [_ Hbuilt].
  destruct (Hbuilt ltac:(discriminate) ltac:(discriminate) 30)
    as (cl & _ & Hout & Hurl & Hkey & Htimeout).
  { left. split; [discriminate|reflexivity]. }
  exists cl. rewrite Hout.
  cbn [provider.N8nCloudProvider.DataSourceData provider.N8nCloudProvider.ResourceData].
  split; [reflexivity|]. split; [reflexivity|].
  split; [exact Hurl|]. split; [exact Hkey|exact Htimeout].
Defined.

(** The key is neither configured nor in the environment: an error is
    reported and no client is published. *)
Example Configure_missing_key_example :
  let req := {| provider.N8nCloudProvider.Config :=
                  got {| provider.N8nCloudProvider.APIKey := types.StringNull;
                         provider.N8nCloudProvider.InstanceURL :=
                           types.StringValue "https://demo.app.n8n.cloud";
                         provider.N8nCloudProvider.Timeout := types.Int64Value 5 |} |} in
  let out := provider.N8nCloudProvider.Configure ∅ req demo_configure_resp in
  map summary (provider.N8nCloudProvider.cfg_Diagnostics out) =
    ["Missing n8n Cloud API Key"] /\
  provider.N8nCloudProvider.DataSourceData out = None.
Proof. cbv zeta. split; reflexivity. Qed.

(** * Further properties of the code *)

(** ** [NewClient] and [doRequest] *)
Section TransportFacts.
Context `{client.Platform}.
Import client.

Lemma defaultTimeout_value : defaultTimeout = 30000000000.
Proof. reflexivity. Qed.

(** [NewClient] refuses an empty base URL, then an empty API key; a
    client it builds keeps the URL and the key of the configuration, and
    its time-out is the configured one, or 30 seconds when the
    configuration has none (zero): it is never zero. *)
Theorem NewClient_validates_config (config : Config) :
  (BaseURL config = "" -> NewClient config = Err "base URL is required") /\
  (BaseURL config <> "" -> APIKey config = "" ->
   NewClient config = Err "API key is required") /\
  (BaseURL config <> "" -> APIKey config <> "" ->
   exists c,
     NewClient config = Ok c /\
     baseURL c = BaseURL config /\
     apiKey c = APIKey config /\
     http_Timeout (httpClient c) <> 0 /\
     (Timeout config <> 0 -> http_Timeout (httpClient c) = Timeout config) /\
     (Timeout config = 0 -> http_Timeout (httpClient c) = 30 * Second)).
Proof.
  unfold NewClient. split; [|split].
  - intros ->. reflexivity.
  - intros Hu ->. destruct (decide (BaseURL config = "")); [contradiction|reflexivity].
  - intros Hu Hk.
    destruct (decide (BaseURL config = "")); [contradiction|].
    destruct (decide (APIKey config = "")); [contradiction|].
    eexists. split; [reflexivity|].
    cbn [baseURL apiKey httpClient http_Timeout].
    split; [reflexivity|]. split; [reflexivity|].
    destruct (decide (Timeout config = 0)) as [Hz|Hz].
    + rewrite defaultTimeout_value. split; [discriminate|].
      split; [contradiction|]. intros _. reflexivity.
    + split; [exact Hz|]. split; [reflexivity|contradiction].
Qed.

(** When the request body cannot be marshalled, or the request cannot
    be constructed, [doRequest] returns the error under its own prefix
    and nothing is handed to the HTTP client: the world is unchanged. *)
Theorem doRequest_fails_before_sending c ctx method path body w :
  (forall b e, body = Some b -> json_Marshal b = Err e ->
     doRequest c ctx method path body w =
       (Err ("failed to marshal request body: " +:+ e), w)) /\
  (forall reqBody e,
     marshal_body body = Ok reqBody ->
     http_NewRequest_error method (baseURL c +:+ "/api/v1" +:+ path) = Some e ->
     doRequest c ctx method path body w =
       (Err ("failed to create request: " +:+ e), w)).
Proof.
  split.
  - intros b e -> Hm. rewrite doRequest_unfold. cbn. rewrite Hm. reflexivity.
  - intros reqBody e Hm Hn. rewrite doRequest_unfold, Hm.
    unfold request_url. rewrite Hn. reflexivity.
Qed.

(** When the round trip itself fails (no response, or a response whose
    body cannot be read) [doRequest] returns the error under its own
    prefix; the request was handed to the HTTP client exactly once: there
    is no second attempt. *)
Theorem doRequest_transport_failure c ctx method path body reqBody w s' :
  let req := {| req_ctx := ctx; Method := method;
                URL := baseURL c +:+ "/api/v1" +:+ path;
                Header := set_headers c; ReqBody := reqBody |} in
  marshal_body body = Ok reqBody ->
  http_NewRequest_error method (baseURL c +:+ "/api/v1" +:+ path) = None ->
  (forall e,
     http_Do (http_Timeout (httpClient c)) req (server w) = (DoError e, s') ->
     doRequest c ctx method path body w =
       (Err ("failed to perform request: " +:+ e),
        {| server := s'; sent := sent w ++ [req] |})) /\
  (forall status e,
     http_Do (http_Timeout (httpClient c)) req (server w) = (ReadError status e, s') ->
     doRequest c ctx method path body w =
       (Err ("failed to read response body: " +:+ e),
        {| server := s'; sent := sent w ++ [req] |})).
Proof.
  intros req Hm Hn. subst req.
  split; [intros e Hdo|intros status e Hdo];
    rewrite doRequest_unfold, Hm; unfold request_url, new_request;
    rewrite Hn; cbn zeta; rewrite Hdo; reflexivity.
Qed.

(** What one [doRequest] adds to the requests sent: nothing or one
    request, with the method, URL, context and headers of the call. *)
Lemma doRequest_new_requests c ctx method path body w :
  exists new,
    sent (snd (doRequest c ctx method path body w)) = sent w ++ new /\
    (length new <= 1)%nat /\
    Forall (fun r => req_ctx r = ctx /\ Method r = method /\
                     URL r = baseURL c +:+ "/api/v1" +:+ path /\
                     Header r = set_headers c) new.
Proof.
  destruct (doRequest_sent c ctx method path body w) as [Hs|[reqBody Hs]].
  - exists []. rewrite Hs, app_nil_r. repeat split; [cbn; lia|constructor].
  - eexists. split; [exact Hs|]. split; [cbn; lia|].
    constructor; [|constructor]. repeat split.
Qed.

End TransportFacts.

(** ** The entity client *)
Section EntityClientFacts.
Context `{client.Platform}.
Import client.
Variable json_Unmarshal_UsersResponse : string -> result UsersResponse.

Lemma ListUsers_unfold c ctx w :
  ListUsers json_Unmarshal_UsersResponse c ctx w =
  (let (r, w') := doRequest c ctx "GET" "/users" None w in
   (match r with
    | Err e => Err e
    | Ok body =>
        match json_Unmarshal_UsersResponse body with
        | Err e => Err ("failed to unmarshal users response: " +:+ e)
        | Ok resp => Ok (us_Data resp)
        end
    end, w')).
Proof.
  unfold ListUsers, bind, ret.
  destruct (doRequest _ _ _ _ _ _) as [[body|e] w']; [|reflexivity].
  destruct (json_Unmarshal_UsersResponse body); reflexivity.
Qed.

Lemma CreateUser_unfold c ctx q w :
  CreateUser c ctx q w =
  (let (r, w') := doRequest c ctx "POST" "/users" (Some (BodyCreateUser q)) w in
   (match r with
    | Err e => Err e
    | Ok body =>
        match json_Unmarshal_UserResponse body with
        | Err e => Err ("failed to unmarshal create user response: " +:+ e)
        | Ok resp => Ok (Data resp)
        end
    end, w')).
Proof.
  unfold CreateUser, bind, ret.
  destruct (doRequest _ _ _ _ _ _) as [[body|e] w']; [|reflexivity].
  destruct (json_Unmarshal_UserResponse body); reflexivity.
Qed.

(** The world a client method leaves is the one its [doRequest] leaves. *)
Lemma client_methods_world c ctx id newRole q w :
  snd (GetUser c ctx id w) = snd (doRequest c ctx "GET" ("/users/" +:+ id) None w) /\
  snd (CreateUser c ctx q w) =
    snd (doRequest c ctx "POST" "/users" (Some (BodyCreateUser q)) w) /\
  snd (UpdateUserRole c ctx id newRole w) =
    snd (doRequest c ctx "PATCH" ("/users/" +:+ id +:+ "/role")
           (Some (BodyUpdateUserRole {| NewRoleName := newRole |})) w) /\
  snd (DeleteUser c ctx id w) =
    snd (doRequest c ctx "DELETE" ("/users/" +:+ id) None w) /\
  snd (ListUsers json_Unmarshal_UsersResponse c ctx w) =
    snd (doRequest c ctx "GET" "/users" None w).
Proof.
  rewrite GetUser_unfold, CreateUser_unfold, ListUsers_unfold.
  unfold UpdateUserRole, DeleteUser, bind, ret.
  repeat split; destruct (doRequest _ _ _ _ _ _); reflexivity.
Qed.

(** Every method of the client hands at most one request to the HTTP
    client per call (no retry, no second page, no follow-up), and that
    request carries the API key header and addresses the users
    collection under [{baseURL}/api/v1]. *)
Theorem client_methods_send_at_most_one_request c ctx id email newRole q w :
  let at_most_one (w' : World) :=
    exists new,
      sent w' = sent w ++ new /\
      (length new <= 1)%nat /\
      Forall (fun r =>
                req_ctx r = ctx /\
                In ("X-N8N-API-KEY", apiKey c) (Header r) /\
                In ("User-Agent", "terraform-provider-n8ncloud") (Header r) /\
                exists rest, URL r = baseURL c +:+ "/api/v1/users" +:+ rest) new in
  at_most_one (snd (GetUser c ctx id w)) /\
  at_most_one (snd (GetUserByEmail c ctx email w)) /\
  at_most_one (snd (CreateUser c ctx q w)) /\
  at_most_one (snd (UpdateUserRole c ctx id newRole w)) /\
  at_most_one (snd (DeleteUser c ctx id w)) /\
  at_most_one (snd (ListUsers json_Unmarshal_UsersResponse c ctx w)).
Proof.
  intros at_most_one.
  assert (Hdo : forall method rest body,
            at_most_one (snd (doRequest c ctx method ("/users" +:+ rest) body w))).
  { intros method rest body.
    destruct (doRequest_new_requests c ctx method ("/users" +:+ rest) body w)
      as (new & Hs & Hlen & Hall).
    exists new. split; [exact Hs|]. split; [exact Hlen|].
    eapply Forall_impl; [exact Hall|].
    intros r (Hctx & _ & Hurl & Hh). rewrite Hh, Hurl.
    split; [exact Hctx|]. split; [left; reflexivity|].
    split; [do 3 right; left; reflexivity|].
    exists rest. reflexivity. }
  destruct (client_methods_world c ctx id newRole q w) as (Hg & Hc & Hu & Hd & Hl).
  destruct (client_methods_world c ctx email newRole q w) as (Hg' & _).
  unfold GetUserByEmail.
  rewrite Hg, Hg', Hc, Hu, Hd, Hl.
  split; [apply (Hdo "GET" ("/" +:+ id))|].
  split; [apply (Hdo "GET" ("/" +:+ email))|].
  split; [apply (Hdo "POST" "")|].
  split; [apply (Hdo "PATCH" ("/" +:+ id +:+ "/role"))|].
  split; [apply (Hdo "DELETE" ("/" +:+ id))|].
  apply (Hdo "GET" "").
Qed.

(** A method that returns without error has sent exactly the request of
    the REST interface: [POST /users] with the marshalled request,
    [PATCH /users/{id}/role] with the marshalled new role,
    [DELETE /users/{id}] and [GET /users] without a body. *)
Theorem client_requests_on_success c ctx id newRole q w w' :
  let request method path reqBody :=
    {| req_ctx := ctx; Method := method;
       URL := baseURL c +:+ "/api/v1" +:+ path;
       Header := set_headers c; ReqBody := reqBody |} in
  (forall user, CreateUser c ctx q w = (Ok user, w') ->
     exists jsonBody,
       json_Marshal (BodyCreateUser q) = Ok jsonBody /\
       sent w' = sent w ++ [request "POST" "/users" (Some jsonBody)]) /\
  (UpdateUserRole c ctx id newRole w = (None, w') ->
     exists jsonBody,
       json_Marshal (BodyUpdateUserRole {| NewRoleName := newRole |}) = Ok jsonBody /\
       sent w' = sent w ++
         [request "PATCH" ("/users/" +:+ id +:+ "/role") (Some jsonBody)]) /\
  (DeleteUser c ctx id w = (None, w') ->
     sent w' = sent w ++ [request "DELETE" ("/users/" +:+ id) None]) /\
  (forall users,
     ListUsers json_Unmarshal_UsersResponse c ctx w = (Ok users, w') ->
     sent w' = sent w ++ [request "GET" "/users" None]).
Proof.
  intros request. subst request. cbv beta.
  split; [|split; [|split]].
  - intros user. rewrite CreateUser_unfold.
    destruct (doRequest _ _ _ _ _ _) as [[body|e] w1] eqn:Hdo; [|discriminate].
    intros [= _ <-].
    apply doRequest_Ok_sent in Hdo as (reqBody & Hm & ->).
    unfold marshal_body in Hm.
    destruct (json_Marshal _) as [jsonBody|e]; [|discriminate].
    injection Hm as <-. exists jsonBody. split; reflexivity.
  - intros Hu. apply (UpdateUserRole_nil_sent c ctx id newRole w w' Hu).
  - unfold DeleteUser, bind, ret.
    destruct (doRequest _ _ _ _ _ _) as [[body|e] w1] eqn:Hdo; [|discriminate].
    cbn. intros [= <-].
    apply doRequest_Ok_sent in Hdo as (reqBody & [= <-] & ->). reflexivity.
  - intros users. rewrite ListUsers_unfold.
    destruct (doRequest _ _ _ _ _ _) as [[body|e] w1] eqn:Hdo; [|discriminate].
    intros [= _ <-].
    apply doRequest_Ok_sent in Hdo as (reqBody & [= <-] & ->). reflexivity.
Qed.

(** [GetUser] returns a user only when the server answered with a status
    below 400 and a body that decodes to a response holding that user;
    every other outcome is an error. *)
Theorem GetUser_Ok_only_from_success_response c ctx id w user w' :
  GetUser c ctx id w = (Ok user, w') ->
  exists status respBody resp,
    http_Do (http_Timeout (httpClient c))
      {| req_ctx := ctx; Method := "GET";
         URL := baseURL c +:+ "/api/v1/users/" +:+ id;
         Header := set_headers c; ReqBody := None |} (server w)
      = (Response status respBody, server w') /\
    status < 400 /\
    json_Unmarshal_UserResponse respBody = Ok resp /\
    Data resp = user.
Proof.
  rewrite GetUser_unfold, doRequest_unfold. cbn [marshal_body].
  destruct (http_NewRequest_error _ _); [discriminate|].
  cbn zeta. unfold request_url, new_request.
  destruct (http_Do _ _ _) as [rt s'] eqn:Hdo.
  destruct rt as [e|status e|status respBody]; cbn [classify]; try discriminate.
  destruct (Z.leb_spec 400 status) as [Hs|Hs].
  { destruct (json_Unmarshal_ErrorResponse respBody); discriminate. }
  destruct (json_Unmarshal_UserResponse respBody) as [resp|e] eqn:Hresp; [|discriminate].
  intros [= <- <-]. exists status, respBody, resp. cbn [server].
  split; [first [reflexivity | exact Hdo]|].
  split; [exact Hs|]. split; [exact Hresp|reflexivity].
Qed.

(** [ListUsers] returns the users of the one page it asked for: whatever
    cursor the response carries, the result is the [data] of that
    response and no further request is made. *)
Theorem ListUsers_returns_first_page c ctx w body w' page :
  doRequest c ctx "GET" "/users" None w = (Ok body, w') ->
  json_Unmarshal_UsersResponse body = Ok page ->
  ListUsers json_Unmarshal_UsersResponse c ctx w = (Ok (us_Data page), w') /\
  sent w' = sent w ++
    [{| req_ctx := ctx; Method := "GET"; URL := baseURL c +:+ "/api/v1/users";
        Header := set_headers c; ReqBody := None |}].
Proof.
  intros Hdo Hpage. rewrite ListUsers_unfold, Hdo, Hpage. split; [reflexivity|].
  apply doRequest_Ok_sent in Hdo as (reqBody & [= <-] & ->). reflexivity.
Qed.

End EntityClientFacts.

(** ** The resource: [Read], [Delete], [ImportState] and how they compose *)
Section ResourceLifecycleFacts.
Context `{client.Platform}.
Import provider provider.UserResource.

Lemma Append_nil (ds : diag.Diagnostics) : Append ds [] = ds.
Proof. reflexivity. Qed.

(** The attributes [State_Set] writes. *)
Lemma State_Set_lookup_Some (data : UserResourceModel) k v :
  State_Set data !! k = Some v ->
  (k = "id" /\ v = AString (ID data)) \/
  (k = "email" /\ v = AString (Email data)) \/
  (k = "role" /\ v = AString (Role data)) \/
  (k = "first_name" /\ v = AString (FirstName data)) \/
  (k = "last_name" /\ v = AString (LastName data)) \/
  (k = "is_pending" /\ v = ABool (IsPending data)) \/
  (k = "created_at" /\ v = AString (CreatedAt data)) \/
  (k = "updated_at" /\ v = AString (UpdatedAt data)) \/
  (k = "invite_accept_url" /\ v = AString (InviteAcceptURL data)).
Proof.
  unfold State_Set. cbn [list_to_map foldr fst snd].
  repeat (rewrite lookup_insert_Some; intros [[<- <-]|[_ Hk]]; [tauto|revert Hk]).
  rewrite lookup_empty. discriminate.
Qed.

(** A successful resource [Read] (one that reports no error) has sent the
    single request [GET /users/{id}] for the stored id; the state it
    writes keeps that id and takes [email], [is_pending], [created_at],
    [updated_at], [first_name], [last_name] and [invite_accept_url] from
    the response; [role] is the role of the response, or the stored role
    when the response carries none. *)
Theorem Read_refreshes_all_but_id r ctx req resp w :
  let data := got_data (rd_State req) in
  let id := types.ValueString (ID data) in
  let out := Read r ctx req resp w in
  HasError (Diagnostics (fst out)) = false ->
  exists user,
    client.GetUser (client r) ctx id w = (Ok user, snd out) /\
    client.sent (snd out) = client.sent w ++
      [{| client.req_ctx := ctx; client.Method := "GET";
          client.URL := client.baseURL (client r) +:+ "/api/v1/users/" +:+ id;
          client.Header := client.set_headers (client r);
          client.ReqBody := None |}] /\
    State (fst out) !! "id" = Some (AString (ID data)) /\
    State (fst out) !! "email" =
      Some (AString (types.StringValue (client.Email user))) /\
    State (fst out) !! "is_pending" =
      Some (ABool (types.BoolValue (client.IsPending user))) /\
    State (fst out) !! "created_at" =
      Some (AString (types.StringValue
                       (client.Format_RFC3339 (client.CreatedAt user)))) /\
    State (fst out) !! "updated_at" =
      Some (AString (types.StringValue
                       (client.Format_RFC3339 (client.UpdatedAt user)))) /\
    State (fst out) !! "first_name" =
      Some (AString (match client.FirstName user with
                     | Some s => types.StringValue s
                     | None => types.StringNull
                     end)) /\
    State (fst out) !! "last_name" =
      Some (AString (match client.LastName user with
                     | Some s => types.StringValue s
                     | None => types.StringNull
                     end)) /\
    State (fst out) !! "invite_accept_url" =
      Some (AString (if decide (client.InviteAcceptUrl user = "")
                     then types.StringNull
                     else types.StringValue (client.InviteAcceptUrl user))) /\
    (client.Role user <> "" ->
     State (fst out) !! "role" =
       Some (AString (types.StringValue (client.Role user)))) /\
    (client.Role user = "" ->
     State (fst out) !! "role" = Some (AString (Role data))).
Proof.
  intros data id out. subst out. unfold Read. fold data. fold id.
  destruct (HasError (Diagnostics (resp_Append resp _))) eqn:Hpre.
  { unfold client.ret. cbn [fst]. rewrite Hpre. discriminate. }
  unfold client.bind, client.ret.
  destruct (client.GetUser (client r) ctx id w) as [[user|e] w1] eqn:Hget;
    cbn [fst snd Diagnostics State resp_AddError].
  2:{ rewrite HasError_AddError. discriminate. }
  intros _. exists user. split; [reflexivity|].
  split; [exact (GetUser_Ok_sent _ _ _ _ _ _ Hget)|].
  repeat (split; [reflexivity|]).
  split; intros Hrole; cbn; case_decide; done.
Qed.

(** Reading twice is reading once: when the server returns the same
    record again, a [Read] of the state a successful [Read] wrote writes
    that same state. *)
Theorem Read_twice_same_state r ctx req resp w user w1 :
  let data := got_data (rd_State req) in
  HasError (Diagnostics (resp_Append resp (got_diags (rd_State req)))) = false ->
  client.GetUser (client r) ctx (types.ValueString (ID data)) w = (Ok user, w1) ->
  exists data',
    State (fst (Read r ctx req resp w)) = State_Set data' /\
    forall resp2 w2 w3,
      HasError (Diagnostics resp2) = false ->
      client.GetUser (client r) ctx (types.ValueString (ID data')) w2
        = (Ok user, w3) ->
      State (fst (Read r ctx
                    {| rd_State := {| got_diags := []; got_data := data' |} |}
                    resp2 w2)) = State_Set data'.
Proof.
  intros data Hpre Hget. unfold Read at 1. fold data.
  rewrite Hpre. unfold client.bind, client.ret. rewrite Hget.
  cbn [fst State]. eexists. split; [reflexivity|].
  intros resp2 w2 w3 Hpre2 Hget2. unfold Read.
  cbn [rd_State got_data got_diags ID Role] in Hget2 |- *.
  unfold resp_Append. rewrite Append_nil. cbn [Diagnostics]. rewrite Hpre2.
  unfold client.bind, client.ret. rewrite Hget2. cbn [fst State].
  f_equal. f_equal. destruct (decide (client.Role user = "")); reflexivity.
Qed.

(** [Read] after [Create]: the state a successful [Create] wrote holds
    the id the server assigned; a [Read] of it that gets the same record
    for that id changes at most [email], which becomes the email of the
    record. When the record's email is the planned one, nothing
    changes. *)
Theorem Read_after_Create_same_state r ctx req resp w user w1 :
  let data := got_data (cr_Plan req) in
  let created := State (fst (Create r ctx req resp w)) in
  HasError (Diagnostics (resp_Append resp (got_diags (cr_Plan req)))) = false ->
  client.CreateUser (client r) ctx
    {| client.cr_Email := types.ValueString (Email data);
       client.cr_Role := types.ValueString (Role data);
       client.cr_FirstName := "";
       client.cr_LastName := "" |} w = (Ok user, w1) ->
  exists data',
    created = State_Set data' /\
    types.ValueString (ID data') = client.ID user /\
    forall resp2 w2 w3,
      HasError (Diagnostics resp2) = false ->
      client.GetUser (client r) ctx (client.ID user) w2 = (Ok user, w3) ->
      let read := State (fst (Read r ctx
                                {| rd_State := {| got_diags := [];
                                                  got_data := data' |} |}
                                resp2 w2)) in
      read = <["email" := AString (types.StringValue (client.Email user))]> created /\
      (Email data = types.StringValue (client.Email user) -> read = created).
Proof.
  intros data created Hpre Hcreate. subst created. unfold Create. fold data.
  rewrite Hpre. unfold client.bind, client.ret. rewrite Hcreate.
  cbn [fst State]. eexists. split; [reflexivity|]. split; [reflexivity|].
  intros resp2 w2 w3 Hpre2 Hget2. unfold Read.
  cbn [rd_State got_data got_diags ID Role types.ValueString].
  unfold resp_Append. rewrite Append_nil. cbn [Diagnostics]. rewrite Hpre2.
  unfold client.bind, client.ret. rewrite Hget2. cbn [fst State].
  assert (Hrole :
    (if decide (client.Role user = "")
     then if decide (client.Role user = "") then Role data
          else types.StringValue (client.Role user)
     else types.StringValue (client.Role user)) =
    (if decide (client.Role user = "") then Role data
     else types.StringValue (client.Role user))).
  { destruct (decide (client.Role user = "")); reflexivity. }
  rewrite Hrole. split; [reflexivity|].
  intros ->. reflexivity.
Qed.

(** [Delete] never writes state, whatever happens; when [DeleteUser]
    succeeds it has sent the single request [DELETE /users/{id}] and
    adds no diagnostic of its own. *)
Theorem Delete_never_writes_state r ctx req resp w :
  let data := got_data (del_State req) in
  let id := types.ValueString (ID data) in
  let pre := resp_Append resp (got_diags (del_State req)) in
  let out := Delete r ctx req resp w in
  State (fst out) = State resp /\
  forall w',
    HasError (Diagnostics pre) = false ->
    client.DeleteUser (client r) ctx id w = (None, w') ->
    out = (pre, w') /\
    client.sent w' = client.sent w ++
      [{| client.req_ctx := ctx; client.Method := "DELETE";
          client.URL := client.baseURL (client r) +:+ "/api/v1/users/" +:+ id;
          client.Header := client.set_headers (client r);
          client.ReqBody := None |}].
Proof.
  intros data id pre out. subst out. unfold Delete. fold data. fold id. fold pre.
  split.
  - destruct (HasError (Diagnostics pre)); [reflexivity|].
    unfold client.bind, client.ret.
    destruct (client.DeleteUser _ _ _ _) as [[e|] w1]; reflexivity.
  - intros w' Hpre Hdel. rewrite Hpre.
    unfold client.bind, client.ret. rewrite Hdel. split; [reflexivity|].
    revert Hdel. unfold client.DeleteUser, client.bind, client.ret.
    destruct (client.doRequest _ _ _ _ _ _) as [[body|e] w1] eqn:Hdo; [|discriminate].
    cbn. intros [= <-].
    apply doRequest_Ok_sent in Hdo as (reqBody & [= <-] & ->). reflexivity.
Qed.

(** A failed import: when the lookup of the identifier fails,
    [ImportState] reports one [Client Error] naming the identifier and
    the error, and writes nothing. *)
Theorem ImportState_failure_leaves_state r ctx req resp w e w' :
  client.GetUser (client r) ctx (imp_ID req) w = (Err e, w') ->
  let out := ImportState r ctx req resp w in
  snd out = w' /\
  State (fst out) = State resp /\
  HasError (Diagnostics (fst out)) = true /\
  Diagnostics (fst out) =
    AddError (Diagnostics resp) "Client Error"
      ("Unable to get user by email " +:+ imp_ID req +:+ ", got error: " +:+ e).
Proof.
  intros Hget out. subst out. unfold ImportState, client.bind, client.ret.
  rewrite Hget. cbn. repeat split. apply HasError_AddError.
Qed.

(** [Update] is not atomic towards the server: when the role change
    succeeds and the re-fetch fails, the state is left as it was and an
    error is reported, yet the request [PATCH /users/{id}/role] has been
    sent. *)
Theorem Update_refetch_failure_after_role_change r ctx req resp w w1 e w2 :
  let data := got_data (up_Plan req) in
  let id := types.ValueString (ID data) in
  let role := types.ValueString (Role data) in
  HasError (Diagnostics (resp_Append resp (got_diags (up_Plan req)))) = false ->
  client.UpdateUserRole (client r) ctx id role w = (None, w1) ->
  client.GetUser (client r) ctx id w1 = (Err e, w2) ->
  let out := Update r ctx req resp w in
  State (fst out) = State resp /\
  HasError (Diagnostics (fst out)) = true /\
  exists jsonBody later,
    client.json_Marshal
      (client.BodyUpdateUserRole {| client.NewRoleName := role |}) = Ok jsonBody /\
    client.sent (snd out) = client.sent w ++
      {| client.req_ctx := ctx; client.Method := "PATCH";
         client.URL := client.baseURL (client r) +:+ "/api/v1/users/" +:+ id +:+ "/role";
         client.Header := client.set_headers (client r);
         client.ReqBody := Some jsonBody |} :: later.
Proof.
  intros data id role Hpre Hup Hget out. subst out. unfold Update.
  fold data. fold id. fold role. rewrite Hpre.
  unfold client.bind, client.ret. rewrite Hup, Hget.
  cbn [fst snd State resp_AddError resp_Append].
  split; [reflexivity|]. split; [apply HasError_AddError|].
  destruct (UpdateUserRole_nil_sent _ _ _ _ _ _ Hup) as (jsonBody & Hm & Hs1).
  destruct (doRequest_new_requests (client r) ctx "GET" ("/users/" +:+ id) None w1)
    as (later & Hs2 & _).
  assert (Hw2 : w2 = snd (client.doRequest (client r) ctx "GET" ("/users/" +:+ id) None w1)).
  { rewrite GetUser_unfold in Hget.
    destruct (client.doRequest _ _ _ _ _ _) as [r0 w0]. by injection Hget as _ <-. }
  exists jsonBody, later. split; [exact Hm|].
  rewrite Hw2, Hs2, Hs1, <- app_assoc. reflexivity.
Qed.

End ResourceLifecycleFacts.

(** ** No unknown value is stored by [Create] *)
Section CreateKnownFacts.
Context `{client.Platform}.
Import provider provider.UserResource.

(** After a successful [Create] every computed attribute of the state is
    resolved: apart from [email] and [role], which come from the
    configuration, no attribute is left unknown; [role] is resolved too
    whenever the response carries a role. *)
Theorem Create_resolves_computed_attributes r ctx req resp w :
  let out := Create r ctx req resp w in
  HasError (Diagnostics (fst out)) = false ->
  (forall k v,
     State (fst out) !! k = Some v -> k <> "email" -> k <> "role" ->
     v <> AString types.StringUnknown /\ v <> ABool types.BoolUnknown) /\
  (forall user w',
     client.CreateUser (client r) ctx
       {| client.cr_Email := types.ValueString (Email (got_data (cr_Plan req)));
          client.cr_Role := types.ValueString (Role (got_data (cr_Plan req)));
          client.cr_FirstName := "";
          client.cr_LastName := "" |} w = (Ok user, w') ->
     client.Role user <> "" ->
     State (fst out) !! "role" <> Some (AString types.StringUnknown)).
Proof.
  intros out. subst out. unfold Create.
  destruct (HasError (Diagnostics (resp_Append resp _))) eqn:Hpre.
  { unfold client.ret. cbn [fst]. rewrite Hpre. discriminate. }
  unfold client.bind, client.ret.
  destruct (client.CreateUser _ _ _ _) as [[user|e] w1] eqn:Hcreate;
    cbn [fst snd Diagnostics State resp_AddError].
  2:{ rewrite HasError_AddError. discriminate. }
  intros _. split.
  - intros k v Hk Hemail Hrole.
    apply State_Set_lookup_Some in Hk.
    cbn [ID Email Role FirstName LastName IsPending CreatedAt UpdatedAt
         InviteAcceptURL] in Hk.
    destruct Hk as [[-> ->]|[[-> _]|[[-> _]|[[-> ->]|[[-> ->]|[[-> ->]|[[-> ->]|[[-> ->]|[-> ->]]]]]]]]];
      try contradiction; try (split; discriminate).
    + destruct (client.FirstName user); split; discriminate.
    + destruct (client.LastName user); split; discriminate.
    + unfold string_or_null. case_decide; split; discriminate.
  - intros user' w' [= <- <-] Hrole. cbn.
    destruct (decide (client.Role user = "")); [contradiction|discriminate].
Qed.

End CreateKnownFacts.

(** ** The data-source reader, in general *)
Section DataSourceReadFacts.
Context `{client.Platform}.
Import provider provider.UserDataSource.

Lemma DataSource_State_Set_lookup_Some (data : UserDataSourceModel) k v :
  State_Set data !! k = Some v ->
  (k = "id" /\ v = AString (ID data)) \/
  (k = "email" /\ v = AString (Email data)) \/
  (k = "role" /\ v = AString (Role data)) \/
  (k = "first_name" /\ v = AString (FirstName data)) \/
  (k = "last_name" /\ v = AString (LastName data)) \/
  (k = "is_pending" /\ v = ABool (IsPending data)) \/
  (k = "created_at" /\ v = AString (CreatedAt data)) \/
  (k = "updated_at" /\ v = AString (UpdatedAt data)) \/
  (k = "invite_accept_url" /\ v = AString (InviteAcceptURL data)).
Proof.
  unfold State_Set. cbn [list_to_map foldr fst snd].
  repeat (rewrite lookup_insert_Some; intros [[<- <-]|[_ Hk]]; [tauto|revert Hk]).
  rewrite lookup_empty. discriminate.
Qed.

(** [Read], whichever branch it takes, is one [GetUser] of the
    identifier it chose. *)
Lemma Read_by_identifier d ctx req resp w :
  let data := got_data (Config req) in
  let pre := resp_Append resp (got_diags (Config req)) in
  let ident := if types.IsNull (ID data) then types.ValueString (Email data)
               else types.ValueString (ID data) in
  HasError (Diagnostics pre) = false ->
  types.IsNull (ID data) = false \/ types.IsNull (Email data) = false ->
  Read d ctx req resp w =
  (let (r, w') := client.GetUser (client d) ctx ident w in
   (match r with
    | Err e =>
        resp_AddError pre "Client Error" ("Unable to read user, got error: " +:+ e)
    | Ok user =>
        {| Diagnostics := Diagnostics pre; State := State_Set (map_user user) |}
    end, w')).
Proof.
  intros data pre ident Hpre Hsome. subst ident. unfold Read. fold data. fold pre.
  rewrite Hpre. unfold client.bind, client.ret, client.GetUserByEmail.
  destruct (types.IsNull (ID data)) eqn:Hid; cbn [andb negb].
  - destruct Hsome as [|Hemail]; [discriminate|]. rewrite Hemail.
    destruct (client.GetUser _ _ _ _) as [[user|e] w']; reflexivity.
  - destruct (client.GetUser _ _ _ _) as [[user|e] w']; reflexivity.
Qed.

(** A successful data-source [Read] had [id] or [email] configured, sent
    the single request [GET /users/{identifier}] for the id if it is set
    and for the email otherwise, and stores only what the server
    returned: [id] and [email] are the record's even when the lookup was
    by the other of the two, and no attribute of the state is unknown. *)
Theorem DataSourceRead_state_from_server d ctx req resp w :
  let data := got_data (Config req) in
  let ident := if types.IsNull (ID data) then types.ValueString (Email data)
               else types.ValueString (ID data) in
  let out := Read d ctx req resp w in
  HasError (Diagnostics (fst out)) = false ->
  exists user,
    (types.IsNull (ID data) = false \/ types.IsNull (Email data) = false) /\
    client.GetUser (client d) ctx ident w = (Ok user, snd out) /\
    client.sent (snd out) = client.sent w ++
      [{| client.req_ctx := ctx; client.Method := "GET";
          client.URL := client.baseURL (client d) +:+ "/api/v1/users/" +:+ ident;
          client.Header := client.set_headers (client d);
          client.ReqBody := None |}] /\
    State (fst out) !! "id" = Some (AString (types.StringValue (client.ID user))) /\
    State (fst out) !! "email" =
      Some (AString (types.StringValue (client.Email user))) /\
    State (fst out) !! "is_pending" =
      Some (ABool (types.BoolValue (client.IsPending user))) /\
    State (fst out) !! "created_at" =
      Some (AString (types.StringValue
                       (client.Format_RFC3339 (client.CreatedAt user)))) /\
    State (fst out) !! "updated_at" =
      Some (AString (types.StringValue
                       (client.Format_RFC3339 (client.UpdatedAt user)))) /\
    forall k v,
      State (fst out) !! k = Some v ->
      v <> AString types.StringUnknown /\ v <> ABool types.BoolUnknown.
Proof.
  intros data ident out. subst out.
  destruct (HasError (Diagnostics (resp_Append resp (got_diags (Config req)))))
    eqn:Hpre.
  { unfold Read. rewrite Hpre. unfold client.ret. cbn [fst]. rewrite Hpre.
    discriminate. }
  destruct (types.IsNull (ID data) && types.IsNull (Email data)) eqn:Hboth.
  { unfold Read. fold data. rewrite Hpre, Hboth. unfold client.ret. cbn [fst].
    cbn. rewrite HasError_AddError. discriminate. }
  assert (Hsome : types.IsNull (ID data) = false \/ types.IsNull (Email data) = false).
  { destruct (types.IsNull (ID data)); [right|left]; [exact Hboth|reflexivity]. }
  rewrite Read_by_identifier by assumption. fold data. fold ident.
  destruct (client.GetUser (client d) ctx ident w) as [[user|e] w'] eqn:Hget;
    cbn [fst snd Diagnostics State resp_AddError].
  2:{ rewrite HasError_AddError. discriminate. }
  intros _. exists user. split; [exact Hsome|]. split; [reflexivity|].
  split; [exact (GetUser_Ok_sent _ _ _ _ _ _ Hget)|].
  repeat (split; [reflexivity|]).
  intros k v Hk. apply DataSource_State_Set_lookup_Some in Hk.
  unfold map_user in Hk.
  cbn [ID Email Role FirstName LastName IsPending CreatedAt UpdatedAt
       InviteAcceptURL] in Hk.
  destruct Hk as [[-> ->]|[[-> ->]|[[-> ->]|[[-> ->]|[[-> ->]|[[-> ->]|[[-> ->]|[[-> ->]|[-> ->]]]]]]]]];
    try (split; discriminate).
  - destruct (client.GlobalRole user); split; discriminate.
  - destruct (client.FirstName user); split; discriminate.
  - destruct (client.LastName user); split; discriminate.
  - unfold string_or_null. case_decide; split; discriminate.
Qed.

(** A lookup that the server answers with a status of 400 or more and a
    structured error body: the detail of the one [Client Error] reported
    is made of the server's code and message alone; the provider adds
    neither the identifier nor its kind. *)
Theorem DataSourceRead_error_status_detail d ctx req resp w status respBody s' e :
  let data := got_data (Config req) in
  let pre := resp_Append resp (got_diags (Config req)) in
  let ident := if types.IsNull (ID data) then types.ValueString (Email data)
               else types.ValueString (ID data) in
  let url := client.baseURL (client d) +:+ "/api/v1/users/" +:+ ident in
  HasError (Diagnostics pre) = false ->
  types.IsNull (ID data) = false \/ types.IsNull (Email data) = false ->
  client.http_NewRequest_error "GET" url = None ->
  client.http_Do (client.http_Timeout (client.httpClient (client d)))
    {| client.req_ctx := ctx; client.Method := "GET"; client.URL := url;
       client.Header := client.set_headers (client d);
       client.ReqBody := None |} (client.server w)
    = (client.Response status respBody, s') ->
  400 <= status ->
  client.json_Unmarshal_ErrorResponse respBody = Ok e ->
  let out := Read d ctx req resp w in
  State (fst out) = State resp /\
  Diagnostics (fst out) =
    AddError (Diagnostics pre) "Client Error"
      ("Unable to read user, got error: API error: " +:+ client.Code e +:+
       " - " +:+ client.Message e).
Proof.
  intros data pre ident url Hpre Hsome Hnew Hdo Hstatus He out. subst out.
  rewrite Read_by_identifier by assumption. fold data. fold ident. fold pre.
  rewrite GetUser_unfold, doRequest_unfold. cbn [client.marshal_body].
  unfold client.request_url, client.new_request.
  change (client.baseURL (client d) +:+ "/api/v1" +:+ "/users/" +:+ ident) with url.
  rewrite Hnew. cbn zeta. rewrite Hdo. cbn [client.classify].
  destruct (Z.leb_spec 400 status); [|lia]. rewrite He.
  cbn [fst State Diagnostics resp_AddError]. split; reflexivity.
Qed.

End DataSourceReadFacts.

(** ** Provider bootstrap, in general *)
Section BootstrapFacts.
Context `{client.Platform}.
Import provider.

(** [int64] multiplication does not wrap on products within range. *)
Lemma mul64_in_range a b :
  -9223372036854775808 <= a * b < 9223372036854775808 -> mul64 a b = a * b.
Proof.
  intros Hr. unfold mul64, wrap64.
  change (2 ^ 63) with 9223372036854775808.
  change (2 ^ 64) with 18446744073709551616.
  rewrite Z.mod_small by lia. lia.
Qed.

(** The outcomes of [Configure]: it stops with an error and the response
    data as given, or it publishes the client [NewClient] builds from a
    non-empty URL and key. *)
Lemma Configure_cases env req resp :
  let data := got_data (N8nCloudProvider.Config req) in
  let pre := Append (N8nCloudProvider.cfg_Diagnostics resp)
               (got_diags (N8nCloudProvider.Config req)) in
  let out := N8nCloudProvider.Configure env req resp in
  (HasError (N8nCloudProvider.cfg_Diagnostics out) = true /\
   N8nCloudProvider.DataSourceData out = N8nCloudProvider.DataSourceData resp /\
   N8nCloudProvider.ResourceData out = N8nCloudProvider.ResourceData resp /\
   forall d, d ∈ N8nCloudProvider.cfg_Diagnostics out ->
     d ∈ pre \/
     (severity d = SeverityError /\
      (attribute d = Some "api_key" \/ attribute d = Some "instance_url"))) \/
  (HasError pre = false /\
   N8nCloudProvider.cfg_Diagnostics out = pre /\
   exists url key,
     url <> "" /\ key <> "" /\
     url = (if negb (types.IsNull (N8nCloudProvider.InstanceURL data))
            then types.ValueString (N8nCloudProvider.InstanceURL data)
            else N8nCloudProvider.Getenv env "N8N_INSTANCE_URL") /\
     key = (if negb (types.IsNull (N8nCloudProvider.APIKey data))
            then types.ValueString (N8nCloudProvider.APIKey data)
            else N8nCloudProvider.Getenv env "N8N_API_KEY") /\
     let cl :=
       {| client.baseURL := url;
          client.apiKey := key;
          client.httpClient :=
            {| client.http_Timeout :=
                 let t := mul64 (if negb (types.Int64_IsNull
                                             (N8nCloudProvider.Timeout data))
                                 then types.ValueInt64 (N8nCloudProvider.Timeout data)
                                 else 30) Second in
                 if decide (t = 0) then client.defaultTimeout else t |} |} in
     N8nCloudProvider.DataSourceData out = Some cl /\
     N8nCloudProvider.ResourceData out = Some cl).
Proof.
  intros data pre out. subst out. unfold N8nCloudProvider.Configure.
  fold data.
  cbn [N8nCloudProvider.with_diags N8nCloudProvider.cfg_Diagnostics
       N8nCloudProvider.DataSourceData N8nCloudProvider.ResourceData].
  fold pre.
  destruct (HasError pre) eqn:Hpre.
  { left. cbn [N8nCloudProvider.with_diags N8nCloudProvider.cfg_Diagnostics
               N8nCloudProvider.DataSourceData N8nCloudProvider.ResourceData].
    repeat split; [exact Hpre|]. intros d Hd. by left. }
  set (key := if negb (types.IsNull (N8nCloudProvider.APIKey data))
              then types.ValueString (N8nCloudProvider.APIKey data)
              else N8nCloudProvider.Getenv env "N8N_API_KEY").
  set (url := if negb (types.IsNull (N8nCloudProvider.InstanceURL data))
              then types.ValueString (N8nCloudProvider.InstanceURL data)
              else N8nCloudProvider.Getenv env "N8N_INSTANCE_URL").
  set (timeout := if negb (types.Int64_IsNull (N8nCloudProvider.Timeout data))
                  then types.ValueInt64 (N8nCloudProvider.Timeout data)
                  else 30).
  assert (Hattr : forall ds p s dt d,
            d ∈ AddAttributeError ds p s dt ->
            d ∈ ds \/ (severity d = SeverityError /\ attribute d = Some p)).
  { intros ds p s dt d [Hd| ->]%elem_of_Append1_inv; [by left|right]. by split. }
  destruct (types.IsUnknown (N8nCloudProvider.APIKey data)) eqn:Hkey;
    destruct (types.IsUnknown (N8nCloudProvider.InstanceURL data)) eqn:Hurl;
    cbn [N8nCloudProvider.with_diags N8nCloudProvider.cfg_Diagnostics
         N8nCloudProvider.DataSourceData N8nCloudProvider.ResourceData];
    rewrite ?HasError_AddAttributeError;
    cbn [N8nCloudProvider.with_diags N8nCloudProvider.cfg_Diagnostics
         N8nCloudProvider.DataSourceData N8nCloudProvider.ResourceData].
  1-3: left; rewrite ?HasError_AddAttributeError; repeat split;
       intros d Hd; repeat (apply Hattr in Hd as [Hd|[? ?]]); tauto.
  rewrite Hpre.
  destruct (decide (key = "")) as [Hk|Hk]; destruct (decide (url = "")) as [Hu|Hu];
    cbn [N8nCloudProvider.with_diags N8nCloudProvider.cfg_Diagnostics
         N8nCloudProvider.DataSourceData N8nCloudProvider.ResourceData];
    rewrite ?HasError_AddAttributeError;
    cbn [N8nCloudProvider.with_diags N8nCloudProvider.cfg_Diagnostics
         N8nCloudProvider.DataSourceData N8nCloudProvider.ResourceData].
  1-3: left; rewrite ?HasError_AddAttributeError; repeat split;
       intros d Hd; repeat (apply Hattr in Hd as [Hd|[? ?]]); tauto.
  rewrite Hpre. right. unfold client.NewClient.
  cbn [client.BaseURL client.APIKey client.Timeout].
  destruct (decide (url = "")); [contradiction|].
  destruct (decide (key = "")); [contradiction|].
  split; [reflexivity|]. split; [reflexivity|].
  exists url, key. split; [assumption|]. split; [assumption|].
  split; [reflexivity|]. split; [reflexivity|]. split; reflexivity.
Qed.

(** Every diagnostic [Configure] adds is an error attached to [api_key]
    or to [instance_url]. In particular the error of a failed
    [NewClient] is never reported: the checks before the call leave it
    nothing to refuse. *)
Theorem Configure_adds_only_attribute_errors env req resp :
  let pre := Append (N8nCloudProvider.cfg_Diagnostics resp)
               (got_diags (N8nCloudProvider.Config req)) in
  let out := N8nCloudProvider.Configure env req resp in
  (forall d, d ∈ N8nCloudProvider.cfg_Diagnostics out ->
     d ∈ pre \/
     (severity d = SeverityError /\
      (attribute d = Some "api_key" \/ attribute d = Some "instance_url"))) /\
  (forall detail,
     NewErrorDiagnostic "Unable to create n8n Cloud API Client" detail
       ∈ N8nCloudProvider.cfg_Diagnostics out ->
     NewErrorDiagnostic "Unable to create n8n Cloud API Client" detail ∈ pre).
Proof.
  intros pre out.
  assert (Hall : forall d, d ∈ N8nCloudProvider.cfg_Diagnostics out ->
            d ∈ pre \/
            (severity d = SeverityError /\
             (attribute d = Some "api_key" \/ attribute d = Some "instance_url"))).
  { destruct (Configure_cases env req resp) as [(_ & _ & _ & Hd)|(_ & Heq & _)].
    - exact Hd.
    - intros d Hd. left. subst out pre. rewrite Heq in Hd. exact Hd. }
  split; [exact Hall|].
  intros detail Hin. destruct (Hall _ Hin) as [Hpre|[_ [Ha|Ha]]];
    [exact Hpre|discriminate Ha|discriminate Ha].
Qed.

(** [Configure] is all or nothing: started without a client, it ends
    either with an error and no client, or without error and one client
    published for data sources and resources alike; a published client
    has a non-empty base URL, a non-empty API key and a time-out that is
    not zero. *)
Theorem Configure_all_or_nothing env req resp :
  N8nCloudProvider.DataSourceData resp = None ->
  N8nCloudProvider.ResourceData resp = None ->
  let out := N8nCloudProvider.Configure env req resp in
  (HasError (N8nCloudProvider.cfg_Diagnostics out) = true /\
   N8nCloudProvider.DataSourceData out = None /\
   N8nCloudProvider.ResourceData out = None) \/
  (HasError (N8nCloudProvider.cfg_Diagnostics out) = false /\
   exists cl,
     N8nCloudProvider.DataSourceData out = Some cl /\
     N8nCloudProvider.ResourceData out = Some cl /\
     client.baseURL cl <> "" /\
     client.apiKey cl <> "" /\
     client.http_Timeout (client.httpClient cl) <> 0).
Proof.
  intros Hd Hr out.
  destruct (Configure_cases env req resp)
    as [(Herr & Hd' & Hr' & _)|(Hpre & Heq & url & key & Hu & Hk & _ & _ & Hcl)].
  - left. subst out. rewrite Hd', Hr'. auto.
  - right. cbv zeta in Hcl. destruct Hcl as [Hcd Hcr].
    subst out. rewrite Heq. split; [exact Hpre|].
    eexists. split; [exact Hcd|]. split; [exact Hcr|].
    cbn [client.baseURL client.apiKey client.httpClient client.http_Timeout].
    split; [exact Hu|]. split; [exact Hk|].
    case_decide; [rewrite defaultTimeout_value; discriminate|assumption].
Qed.

(** A configured time-out of [n] seconds, for [n] from 1 up to
    9223372036 (the largest number of whole seconds an [int64] count of
    nanoseconds holds), reaches the client as exactly [n] seconds. *)
Theorem Configure_timeout_in_seconds env req resp n :
  N8nCloudProvider.Timeout (got_data (N8nCloudProvider.Config req))
    = types.Int64Value n ->
  1 <= n <= 9223372036 ->
  let out := N8nCloudProvider.Configure env req resp in
  HasError (N8nCloudProvider.cfg_Diagnostics out) = false ->
  exists cl,
    N8nCloudProvider.DataSourceData out = Some cl /\
    N8nCloudProvider.ResourceData out = Some cl /\
    client.http_Timeout (client.httpClient cl) = n * 1000000000.
Proof.
  intros Ht Hn out Hok.
  destruct (Configure_cases env req resp)
    as [(Herr & _)|(_ & _ & url & key & _ & _ & _ & _ & Hcl)].
  { subst out. congruence. }
  cbv zeta in Hcl. destruct Hcl as [Hcd Hcr]. rewrite Ht in Hcd, Hcr.
  cbn [types.Int64_IsNull types.ValueInt64 negb] in Hcd, Hcr.
  eexists. split; [exact Hcd|]. split; [exact Hcr|].
  cbn [client.httpClient client.http_Timeout].
  rewrite mul64_in_range by (unfold Second; lia).
  unfold Second. destruct (decide (n * 1000000000 = 0)); [lia|reflexivity].
Qed.

(** The provider's client reaches the resource and the data source: each
    [Configure] installs the client it is handed and adds no diagnostic;
    handed nothing (the provider is not configured) it leaves its client
    as it is, without error; handed a value of another type it keeps its
    client and reports an error naming that type. After a provider
    [Configure] started without a client, resource and data source are
    handed the same client. *)
Theorem Configure_installs_provider_client env req resp old diags :
  let out := N8nCloudProvider.Configure env req resp in
  (forall c,
     UserResource.Configure old {| ProviderData := Some (AnyClient c) |} diags
       = (Some c, diags) /\
     UserDataSource.Configure old {| ProviderData := Some (AnyClient c) |} diags
       = (Some c, diags)) /\
  (UserResource.Configure old {| ProviderData := None |} diags = (old, diags) /\
   UserDataSource.Configure old {| ProviderData := None |} diags = (old, diags)) /\
  (forall type_name,
     fst (UserResource.Configure old
            {| ProviderData := Some (AnyOther type_name) |} diags) = old /\
     HasError (snd (UserResource.Configure old
                      {| ProviderData := Some (AnyOther type_name) |} diags)) = true /\
     fst (UserDataSource.Configure old
            {| ProviderData := Some (AnyOther type_name) |} diags) = old /\
     HasError (snd (UserDataSource.Configure old
                      {| ProviderData := Some (AnyOther type_name) |} diags)) = true) /\
  (N8nCloudProvider.DataSourceData resp = None ->
   N8nCloudProvider.ResourceData resp = None ->
   fst (UserResource.Configure None
          {| ProviderData := AnyClient <$> N8nCloudProvider.ResourceData out |} diags)
   = fst (UserDataSource.Configure None
            {| ProviderData := AnyClient <$> N8nCloudProvider.DataSourceData out |}
            diags)).
Proof.
  intros out. split; [intros c; split; reflexivity|].
  split; [split; reflexivity|].
  split.
  { intros type_name. cbn. repeat split; apply HasError_AddError. }
  intros Hd Hr.
  destruct (Configure_cases env req resp)
    as [(_ & Hd' & Hr' & _)|(_ & _ & url & key & _ & _ & _ & _ & Hcl)].
  - subst out. rewrite Hd', Hr', Hd, Hr. reflexivity.
  - cbv zeta in Hcl. destruct Hcl as [Hcd Hcr]. subst out.
    rewrite Hcd, Hcr. reflexivity.
Qed.

(** The acceptance pre-check passes exactly when [TF_ACC], [N8N_API_KEY]
    and [N8N_INSTANCE_URL] are set and not empty; an environment that
    passes it configures the provider from a provider block that sets
    nothing: no error, and a client with the key and URL of the
    environment and the default time-out of 30 seconds. *)
Theorem precheck_implies_Configure_succeeds env resp :
  (provider_test.testAccPreCheck env = None <->
   N8nCloudProvider.Getenv env "TF_ACC" <> "" /\
   N8nCloudProvider.Getenv env "N8N_API_KEY" <> "" /\
   N8nCloudProvider.Getenv env "N8N_INSTANCE_URL" <> "") /\
  (provider_test.testAccPreCheck env = None ->
   HasError (N8nCloudProvider.cfg_Diagnostics resp) = false ->
   let req := {| N8nCloudProvider.Config :=
                   {| got_diags := [];
                      got_data :=
                        {| N8nCloudProvider.APIKey := types.StringNull;
                           N8nCloudProvider.InstanceURL := types.StringNull;
                           N8nCloudProvider.Timeout := types.Int64Null |} |} |} in
   let out := N8nCloudProvider.Configure env req resp in
   HasError (N8nCloudProvider.cfg_Diagnostics out) = false /\
   exists cl,
     N8nCloudProvider.DataSourceData out = Some cl /\
     N8nCloudProvider.ResourceData out = Some cl /\
     client.baseURL cl = N8nCloudProvider.Getenv env "N8N_INSTANCE_URL" /\
     client.apiKey cl = N8nCloudProvider.Getenv env "N8N_API_KEY" /\
     client.http_Timeout (client.httpClient cl) = 30000000000).
Proof.
  assert (Hiff : provider_test.testAccPreCheck env = None <->
            N8nCloudProvider.Getenv env "TF_ACC" <> "" /\
            N8nCloudProvider.Getenv env "N8N_API_KEY" <> "" /\
            N8nCloudProvider.Getenv env "N8N_INSTANCE_URL" <> "").
  { unfold provider_test.testAccPreCheck.
    repeat case_decide; split; try discriminate; try tauto. }
  split; [exact Hiff|].
  intros Hcheck Hpre req out. apply Hiff in Hcheck as (_ & Hkey & Hurl).
  subst out req. unfold N8nCloudProvider.Configure.
  cbn [N8nCloudProvider.Config got_data got_diags N8nCloudProvider.APIKey
       N8nCloudProvider.InstanceURL N8nCloudProvider.Timeout
       types.IsUnknown types.IsNull types.Int64_IsNull negb
       N8nCloudProvider.with_diags N8nCloudProvider.cfg_Diagnostics
       N8nCloudProvider.DataSourceData N8nCloudProvider.ResourceData].
  change (Append (N8nCloudProvider.cfg_Diagnostics resp) [])
    with (N8nCloudProvider.cfg_Diagnostics resp).
  rewrite Hpre.
  destruct (decide (N8nCloudProvider.Getenv env "N8N_API_KEY" = ""));
    [contradiction|].
  destruct (decide (N8nCloudProvider.Getenv env "N8N_INSTANCE_URL" = ""));
    [contradiction|].
  cbn [N8nCloudProvider.with_diags N8nCloudProvider.cfg_Diagnostics].
  rewrite Hpre. unfold client.NewClient.
  cbn [client.BaseURL client.APIKey client.Timeout].
  destruct (decide (N8nCloudProvider.Getenv env "N8N_INSTANCE_URL" = ""));
    [contradiction|].
  destruct (decide (N8nCloudProvider.Getenv env "N8N_API_KEY" = ""));
    [contradiction|].
  cbn [N8nCloudProvider.cfg_Diagnostics N8nCloudProvider.DataSourceData
       N8nCloudProvider.ResourceData].
  split; [exact Hpre|].
  eexists. split; [reflexivity|]. split; [reflexivity|].
  cbn [client.baseURL client.apiKey client.httpClient client.http_Timeout].
  split; [reflexivity|]. split; reflexivity.
Qed.

End BootstrapFacts.

(** ** Schemas *)
Section SchemaFacts.
Import provider.

(** What [State.Set] writes fits the schema: for the resource and for
    the data source, whatever the model holds, the attributes written are
    exactly the attributes of the schema, each with a value of the type
    the schema declares. *)
Theorem State_Set_matches_Schema
    (rdata : UserResource.UserResourceModel)
    (ddata : UserDataSource.UserDataSourceModel) (k : string) :
  type_of <$> (UserResource.State_Set rdata !! k)
    = attr_type <$> (UserResource.Schema !! k) /\
  type_of <$> (UserDataSource.State_Set ddata !! k)
    = attr_type <$> (UserDataSource.Schema !! k).
Proof.
  rewrite <- !lookup_fmap. split; f_equal; reflexivity.
Qed.

End SchemaFacts.

(** * Further examples on the concrete platform *)

Lemma NewClient_validates_config_witness :
  let config := {| client.BaseURL := "https://demo.app.n8n.cloud";
                   client.APIKey := "secret";
                   client.Timeout := 0 |} in
  client.BaseURL config <> "" /\
  client.APIKey config <> "" /\
  client.Timeout config = 0 /\
  exists c,
    client.NewClient config = Ok c /\
    client.http_Timeout (client.httpClient c) = 30 * Second.
Proof.
  cbv zeta. split; [discriminate|]. split; [discriminate|]. split; [reflexivity|].
  destruct (NewClient_validates_config
              {| client.BaseURL := "https://demo.app.n8n.cloud";
                 client.APIKey := "secret";
                 client.Timeout := 0 |}) as (_ & _ & Hok).
  destruct (Hok ltac:(discriminate) ltac:(discriminate))
    as (c & Hnew & _ & _ & _ & _ & Hzero).
  exists c. split; [exact Hnew|]. apply Hzero. reflexivity.
Defined.

Lemma doRequest_fails_before_sending_witness :
  let w := @client.Build_World demo.host strict_platform [] [] in
  @client.marshal_body demo.host strict_platform None = Ok None /\
  @client.http_NewRequest_error demo.host strict_platform "GET"
    (client.baseURL demo.the_client +:+ "/api/v1" +:+ "/users/%zz")
    = Some "invalid URL escape" /\
  @client.doRequest demo.host strict_platform demo.the_client demo.ctx
    "GET" "/users/%zz" None w
    = (Err "failed to create request: invalid URL escape", w).
Proof.
  cbv zeta. split; [reflexivity|]. split; [reflexivity|].
  destruct (@doRequest_fails_before_sending demo.host strict_platform
              demo.the_client demo.ctx "GET" "/users/%zz" None
              (@client.Build_World demo.host strict_platform [] []))
    as [_ Hnew].
  exact (Hnew None "invalid URL escape" eq_refl eq_refl).
Defined.

Lemma doRequest_transport_failure_witness :
  let w := demo.world [] in
  let req := {| client.req_ctx := demo.ctx; client.Method := "GET";
                client.URL := "https://demo.app.n8n.cloud/api/v1/users/u-1";
                client.Header := client.set_headers demo.the_client;
                client.ReqBody := None |} in
  client.marshal_body None = Ok None /\
  client.http_NewRequest_error "GET"
    (client.baseURL demo.the_client +:+ "/api/v1" +:+ "/users/u-1") = None /\
  client.http_Do (client.http_Timeout (client.httpClient demo.the_client)) req
    (client.server w) = (client.DoError "connection refused", []) /\
  client.doRequest demo.the_client demo.ctx "GET" "/users/u-1" None w
    = (Err "failed to perform request: connection refused",
       {| client.server := []; client.sent := [req] |}).
Proof.
  cbv zeta. split; [reflexivity|]. split; [reflexivity|]. split; [reflexivity|].
  destruct (doRequest_transport_failure demo.the_client demo.ctx "GET"
              "/users/u-1" None None (demo.world []) [] eq_refl eq_refl)
    as [Hdo _].
  exact (Hdo "connection refused" eq_refl).
Defined.

Lemma client_requests_on_success_witness :
  let w := demo.world [client.Response 204 ""] in
  let w' := snd (client.DeleteUser demo.the_client demo.ctx "u-1" w) in
  client.DeleteUser demo.the_client demo.ctx "u-1" w = (None, w') /\
  client.sent w' =
    [{| client.req_ctx := demo.ctx; client.Method := "DELETE";
        client.URL := "https://demo.app.n8n.cloud/api/v1/users/u-1";
        client.Header := client.set_headers demo.the_client;
        client.ReqBody := None |}].
Proof.
  cbv zeta. split; [reflexivity|].
  destruct (client_requests_on_success demo_unmarshal_users demo.the_client
              demo.ctx "u-1" "global:admin"
              {| client.cr_Email := "alice@example.com";
                 client.cr_Role := "global:member";
                 client.cr_FirstName := ""; client.cr_LastName := "" |}
              (demo.world [client.Response 204 ""])
              (snd (client.DeleteUser demo.the_client demo.ctx "u-1"
                      (demo.world [client.Response 204 ""]))))
    as (_ & _ & Hdelete & _).
  exact (Hdelete eq_refl).
Defined.

Lemma GetUser_Ok_only_from_success_response_witness :
  let w := demo.world [client.Response 200 demo.alice_json] in
  let w' := snd (client.GetUser demo.the_client demo.ctx "u-1" w) in
  client.GetUser demo.the_client demo.ctx "u-1" w = (Ok demo.alice, w') /\
  exists status respBody resp,
    status < 400 /\
    client.json_Unmarshal_UserResponse respBody = Ok resp /\
    client.Data resp = demo.alice.
Proof.
  cbv zeta. split; [reflexivity|].
  destruct (GetUser_Ok_only_from_success_response demo.the_client demo.ctx "u-1"
              (demo.world [client.Response 200 demo.alice_json]) demo.alice
              (snd (client.GetUser demo.the_client demo.ctx "u-1"
                      (demo.world [client.Response 200 demo.alice_json])))
              eq_refl)
    as (status & respBody & resp & _ & Hs & Hr & Hd).
  exists status, respBody, resp. split; [exact Hs|]. split; [exact Hr|exact Hd].
Defined.

Lemma ListUsers_returns_first_page_witness :
  let w := demo.world [client.Response 200 demo_page_json] in
  let w' := snd (client.doRequest demo.the_client demo.ctx "GET" "/users" None w) in
  client.doRequest demo.the_client demo.ctx "GET" "/users" None w
    = (Ok demo_page_json, w') /\
  demo_unmarshal_users demo_page_json
    = Ok {| client.us_Data := [demo.alice]; client.NextCursor := Some "page-2" |} /\
  client.ListUsers demo_unmarshal_users demo.the_client demo.ctx w
    = (Ok [demo.alice], w') /\
  length (client.sent w') = 1%nat.
Proof.
  cbv zeta. split; [reflexivity|]. split; [reflexivity|].
  destruct (ListUsers_returns_first_page demo_unmarshal_users demo.the_client
              demo.ctx (demo.world [client.Response 200 demo_page_json])
              demo_page_json
              (snd (client.doRequest demo.the_client demo.ctx "GET" "/users" None
                      (demo.world [client.Response 200 demo_page_json])))
              {| client.us_Data := [demo.alice]; client.NextCursor := Some "page-2" |}
              eq_refl eq_refl) as [Hlist Hsent].
  split; [exact Hlist|]. rewrite Hsent. reflexivity.
Defined.

Lemma Read_refreshes_all_but_id_witness :
  let req := {| provider.UserResource.rd_State := got demo_stored |} in
  let w := demo.world [client.Response 200 demo.alice_json] in
  let out := provider.UserResource.Read demo_resource demo.ctx req demo_prior_resp w in
  HasError (provider.Diagnostics (fst out)) = false /\
  provider.State (fst out) !! "id" =
    Some (provider.AString (types.StringValue "u-1")) /\
  length (client.sent (snd out)) = 1%nat.
Proof.
  cbv zeta.
  assert (Hok : HasError (provider.Diagnostics (fst
            (provider.UserResource.Read demo_resource demo.ctx
               {| provider.UserResource.rd_State := got demo_stored |}
               demo_prior_resp
               (demo.world [client.Response 200 demo.alice_json])))) = false)
    by reflexivity.
  split; [exact Hok|].
  destruct (Read_refreshes_all_but_id _ _ _ _ _ Hok)
    as (user & _ & Hsent & Hid & _).
  split; [exact Hid|]. rewrite Hsent. reflexivity.
Defined.

Lemma Read_twice_same_state_witness :
  let req := {| provider.UserResource.rd_State := got demo_stored |} in
  let w := demo.world [client.Response 200 demo.alice_json] in
  let w1 := snd (client.GetUser demo.the_client demo.ctx "u-1" w) in
  HasError (provider.Diagnostics
              (provider.resp_Append demo_prior_resp
                 (provider.got_diags (provider.UserResource.rd_State req)))) = false /\
  client.GetUser demo.the_client demo.ctx "u-1" w = (Ok demo.alice, w1) /\
  exists data',
    provider.State (fst (provider.UserResource.Read demo_resource demo.ctx req
                           demo_prior_resp w))
    = provider.UserResource.State_Set data'.
Proof.
  cbv zeta. split; [reflexivity|]. split; [reflexivity|].
  destruct (Read_twice_same_state demo_resource demo.ctx
              {| provider.UserResource.rd_State := got demo_stored |}
              demo_prior_resp
              (demo.world [client.Response 200 demo.alice_json]) demo.alice
              (snd (client.GetUser demo.the_client demo.ctx "u-1"
                      (demo.world [client.Response 200 demo.alice_json])))
              eq_refl eq_refl) as (data' & Hstate & _).
  exists data'. exact Hstate.
Defined.

Lemma Read_after_Create_same_state_witness :
  let req := {| provider.UserResource.cr_Plan := got demo_plan |} in
  let w := demo.world [client.Response 200 demo.alice_json] in
  let q := {| client.cr_Email := "alice@example.com";
              client.cr_Role := "global:member";
              client.cr_FirstName := ""; client.cr_LastName := "" |} in
  let w1 := snd (client.CreateUser demo.the_client demo.ctx q w) in
  HasError (provider.Diagnostics
              (provider.resp_Append demo.no_resp
                 (provider.got_diags (provider.UserResource.cr_Plan req)))) = false /\
  client.CreateUser demo.the_client demo.ctx q w = (Ok demo.alice, w1) /\
  exists data',
    provider.State (fst (provider.UserResource.Create demo_resource demo.ctx req
                           demo.no_resp w))
    = provider.UserResource.State_Set data' /\
    types.ValueString (provider.UserResource.ID data') = "u-1".
Proof.
  cbv zeta. split; [reflexivity|]. split; [reflexivity|].
  destruct (Read_after_Create_same_state demo_resource demo.ctx
              {| provider.UserResource.cr_Plan := got demo_plan |}
              demo.no_resp
              (demo.world [client.Response 200 demo.alice_json]) demo.alice
              (snd (client.CreateUser demo.the_client demo.ctx
                      {| client.cr_Email := "alice@example.com";
                         client.cr_Role := "global:member";
                         client.cr_FirstName := ""; client.cr_LastName := "" |}
                      (demo.world [client.Response 200 demo.alice_json])))
              eq_refl eq_refl) as (data' & Hstate & Hid & _).
  exists data'. split; [exact Hstate|exact Hid].
Defined.

Lemma Delete_never_writes_state_witness :
  let req := {| provider.UserResource.del_State := got demo_stored |} in
  let w := demo.world [client.Response 204 ""] in
  let w' := snd (client.DeleteUser demo.the_client demo.ctx "u-1" w) in
  let out := provider.UserResource.Delete demo_resource demo.ctx req demo_prior_resp w in
  HasError (provider.Diagnostics
              (provider.resp_Append demo_prior_resp
                 (provider.got_diags (provider.UserResource.del_State req)))) = false /\
  client.DeleteUser demo.the_client demo.ctx "u-1" w = (None, w') /\
  provider.State (fst out) = provider.State demo_prior_resp /\
  length (client.sent w') = 1%nat.
Proof.
  cbv zeta. split; [reflexivity|]. split; [reflexivity|].
  destruct (Delete_never_writes_state demo_resource demo.ctx
              {| provider.UserResource.del_State := got demo_stored |}
              demo_prior_resp (demo.world [client.Response 204 ""]))
    as [Hstate Hok].
  split; [exact Hstate|].
  destruct (Hok _ eq_refl eq_refl) as [_ Hsent].
  etransitivity; [exact (f_equal length Hsent)|reflexivity].
Defined.

Lemma ImportState_failure_leaves_state_witness :
  let req := {| provider.UserResource.imp_ID := "nobody@example.com" |} in
  let w := demo.world [client.Response 404 demo.not_found_json] in
  let out := provider.UserResource.ImportState demo_resource demo.ctx req
               demo.no_resp w in
  fst (client.GetUser demo.the_client demo.ctx "nobody@example.com" w)
    = Err "API error: 404 - Not Found" /\
  provider.State (fst out) = ∅ /\
  map detail (provider.Diagnostics (fst out)) =
    ["Unable to get user by email nobody@example.com, got error: API error: 404 - Not Found"].
Proof.
  cbv zeta. split; [reflexivity|].
  destruct (ImportState_failure_leaves_state demo_resource demo.ctx
              {| provider.UserResource.imp_ID := "nobody@example.com" |}
              demo.no_resp
              (demo.world [client.Response 404 demo.not_found_json])
              "API error: 404 - Not Found" _ eq_refl)
    as (_ & Hstate & _ & Hdiags).
  split; [exact Hstate|]. rewrite Hdiags. reflexivity.
Defined.

Lemma Update_refetch_failure_after_role_change_witness :
  let req := {| provider.UserResource.up_Plan := got demo_stored |} in
  let w := demo.world [client.Response 200 "";
                       client.Response 503 "upstream down"] in
  let w1 := snd (client.UpdateUserRole demo.the_client demo.ctx "u-1"
                   "global:admin" w) in
  let out := provider.UserResource.Update demo_resource demo.ctx req demo_prior_resp w in
  HasError (provider.Diagnostics
              (provider.resp_Append demo_prior_resp
                 (provider.got_diags (provider.UserResource.up_Plan req)))) = false /\
  client.UpdateUserRole demo.the_client demo.ctx "u-1" "global:admin" w
    = (None, w1) /\
  fst (client.GetUser demo.the_client demo.ctx "u-1" w1)
    = Err "HTTP 503: upstream down" /\
  provider.State (fst out) = provider.State demo_prior_resp /\
  HasError (provider.Diagnostics (fst out)) = true.
Proof.
  cbv zeta. split; [reflexivity|]. split; [reflexivity|]. split; [reflexivity|].
  destruct (Update_refetch_failure_after_role_change demo_resource demo.ctx
              {| provider.UserResource.up_Plan := got demo_stored |}
              demo_prior_resp
              (demo.world [client.Response 200 "";
                           client.Response 503 "upstream down"])
              _ "HTTP 503: upstream down" _ eq_refl eq_refl eq_refl)
    as (Hstate & Herr & _).
  split; [exact Hstate|exact Herr].
Defined.

Lemma Create_resolves_computed_attributes_witness :
  let req := {| provider.UserResource.cr_Plan := got demo_plan |} in
  let w := demo.world [client.Response 200 demo.alice_json] in
  let out := provider.UserResource.Create demo_resource demo.ctx req demo.no_resp w in
  HasError (provider.Diagnostics (fst out)) = false /\
  provider.State (fst out) !! "last_name" =
    Some (provider.AString types.StringNull) /\
  provider.AString types.StringNull <> provider.AString types.StringUnknown.
Proof.
  cbv zeta.
  assert (Hok : HasError (provider.Diagnostics (fst
            (provider.UserResource.Create demo_resource demo.ctx
               {| provider.UserResource.cr_Plan := got demo_plan |}
               demo.no_resp
               (demo.world [client.Response 200 demo.alice_json])))) = false)
    by reflexivity.
  split; [exact Hok|]. split; [reflexivity|].
  destruct (Create_resolves_computed_attributes _ _ _ _ _ Hok) as [Hknown _].
  exact (proj1 (Hknown "last_name" _ eq_refl ltac:(discriminate) ltac:(discriminate))).
Defined.

Lemma DataSourceRead_state_from_server_witness :
  let req := {| provider.UserDataSource.Config :=
                  got (demo_config types.StringNull
                         (types.StringValue "alice@example.com")) |} in
  let w := demo.world [client.Response 200 demo.alice_json] in
  let out := provider.UserDataSource.Read demo_data_source demo.ctx req demo.no_resp w in
  HasError (provider.Diagnostics (fst out)) = false /\
  map client.URL (client.sent (snd out)) =
    ["https://demo.app.n8n.cloud/api/v1/users/alice@example.com"] /\
  exists user,
    provider.State (fst out) !! "id" =
      Some (provider.AString (types.StringValue (client.ID user))).
Proof.
  cbv zeta.
  assert (Hok : HasError (provider.Diagnostics (fst
            (provider.UserDataSource.Read demo_data_source demo.ctx
               {| provider.UserDataSource.Config :=
                    got (demo_config types.StringNull
                           (types.StringValue "alice@example.com")) |}
               demo.no_resp
               (demo.world [client.Response 200 demo.alice_json])))) = false)
    by reflexivity.
  split; [exact Hok|].
  destruct (DataSourceRead_state_from_server _ _ _ _ _ Hok)
    as (user & _ & _ & Hsent & Hid & _).
  split; [rewrite Hsent; reflexivity|]. exists user. exact Hid.
Defined.

Lemma DataSourceRead_error_status_detail_witness :
  let req := {| provider.UserDataSource.Config :=
                  got (demo_config (types.StringValue "non-existent-id")
                         types.StringNull) |} in
  let w := demo.world [client.Response 404 demo.not_found_json] in
  let out := provider.UserDataSource.Read demo_data_source demo.ctx req demo.no_resp w in
  400 <= 404 /\
  client.json_Unmarshal_ErrorResponse demo.not_found_json
    = Ok {| client.Code := "404"; client.Message := "Not Found"; client.Hint := "" |} /\
  provider.Diagnostics (fst out) =
    [NewErrorDiagnostic "Client Error"
       "Unable to read user, got error: API error: 404 - Not Found"].
Proof.
  cbv zeta. split; [lia|]. split; [reflexivity|].
  destruct (DataSourceRead_error_status_detail demo_data_source demo.ctx
              {| provider.UserDataSource.Config :=
                   got (demo_config (types.StringValue "non-existent-id")
                          types.StringNull) |}
              demo.no_resp
              (demo.world [client.Response 404 demo.not_found_json])
              404 demo.not_found_json []
              {| client.Code := "404"; client.Message := "Not Found"; client.Hint := "" |}
              eq_refl (or_introl eq_refl) eq_refl eq_refl ltac:(lia) eq_refl)
    as [_ Hdiags].
  exact Hdiags.
Defined.

Lemma Read_by_id_by_email_same_witness :
  let by_id := demo_config (types.StringValue "alice@example.com") types.StringNull in
  let by_email := demo_config types.StringNull (types.StringValue "alice@example.com") in
  let w := demo.world [client.Response 200 demo.alice_json] in
  types.IsNull (provider.UserDataSource.ID by_id) = false /\
  types.IsNull (provider.UserDataSource.ID by_email) = true /\
  types.IsNull (provider.UserDataSource.Email by_email) = false /\
  provider.UserDataSource.Read demo_data_source demo.ctx
    {| provider.UserDataSource.Config := got by_id |} demo.no_resp w =
  provider.UserDataSource.Read demo_data_source demo.ctx
    {| provider.UserDataSource.Config := got by_email |} demo.no_resp w.
Proof.
  cbv zeta. split; [reflexivity|]. split; [reflexivity|]. split; [reflexivity|].
  exact (Read_by_id_by_email_same demo_data_source demo.ctx "alice@example.com"
           demo.no_resp (demo.world [client.Response 200 demo.alice_json])
           (demo_config (types.StringValue "alice@example.com") types.StringNull)
           (demo_config types.StringNull (types.StringValue "alice@example.com"))
           eq_refl eq_refl eq_refl eq_refl eq_refl).
Defined.

Lemma Configure_adds_only_attribute_errors_witness :
  let req := {| provider.N8nCloudProvider.Config := got empty_provider_config |} in
  let out := provider.N8nCloudProvider.Configure ∅ req demo_configure_resp in
  map summary (provider.N8nCloudProvider.cfg_Diagnostics out) =
    ["Missing n8n Cloud API Key"; "Missing n8n Cloud Instance URL"] /\
  forall d, d ∈ provider.N8nCloudProvider.cfg_Diagnostics out ->
    attribute d = Some "api_key" \/ attribute d = Some "instance_url".
Proof.
  cbv zeta. split; [reflexivity|].
  destruct (Configure_adds_only_attribute_errors ∅
              {| provider.N8nCloudProvider.Config := got empty_provider_config |}
              demo_configure_resp) as [Hall _].
  intros d Hd. destruct (Hall d Hd) as [Hpre|[_ Hattr]]; [|exact Hattr].
  cbn in Hpre. by apply elem_of_nil in Hpre.
Defined.

Lemma Configure_all_or_nothing_witness :
  let req := {| provider.N8nCloudProvider.Config := got demo_provider_config |} in
  let out := provider.N8nCloudProvider.Configure demo_env req demo_configure_resp in
  provider.N8nCloudProvider.DataSourceData demo_configure_resp = None /\
  provider.N8nCloudProvider.ResourceData demo_configure_resp = None /\
  HasError (provider.N8nCloudProvider.cfg_Diagnostics out) = false /\
  exists cl,
    provider.N8nCloudProvider.DataSourceData out = Some cl /\
    provider.N8nCloudProvider.ResourceData out = Some cl /\
    client.http_Timeout (client.httpClient cl) <> 0.
Proof.
  cbv zeta. split; [reflexivity|]. split; [reflexivity|]. split; [reflexivity|].
  destruct (Configure_all_or_nothing demo_env
              {| provider.N8nCloudProvider.Config := got demo_provider_config |}
              demo_configure_resp eq_refl eq_refl)
    as [(Herr & _)|(_ & cl & Hd & Hr & _ & _ & Ht)].
  - discriminate Herr.
  - exists cl. split; [exact Hd|]. split; [exact Hr|exact Ht].
Defined.

Lemma Configure_timeout_in_seconds_witness :
  let data := {| provider.N8nCloudProvider.APIKey := types.StringValue "cfg-key";
                 provider.N8nCloudProvider.InstanceURL := types.StringNull;
                 provider.N8nCloudProvider.Timeout := types.Int64Value 45 |} in
  let req := {| provider.N8nCloudProvider.Config := got data |} in
  let out := provider.N8nCloudProvider.Configure demo_env req demo_configure_resp in
  1 <= 45 <= 9223372036 /\
  HasError (provider.N8nCloudProvider.cfg_Diagnostics out) = false /\
  exists cl,
    provider.N8nCloudProvider.DataSourceData out = Some cl /\
    client.http_Timeout (client.httpClient cl) = 45000000000.
Proof.
  cbv zeta. split; [lia|]. split; [reflexivity|].
  destruct (Configure_timeout_in_seconds demo_env
              {| provider.N8nCloudProvider.Config :=
                   got {| provider.N8nCloudProvider.APIKey := types.StringValue "cfg-key";
                          provider.N8nCloudProvider.InstanceURL := types.StringNull;
                          provider.N8nCloudProvider.Timeout := types.Int64Value 45 |} |}
              demo_configure_resp 45 eq_refl ltac:(lia) eq_refl)
    as (cl & Hd & _ & Ht).
  exists cl. split; [exact Hd|exact Ht].
Defined.

Lemma Configure_installs_provider_client_witness :
  let req := {| provider.N8nCloudProvider.Config := got demo_provider_config |} in
  let out := provider.N8nCloudProvider.Configure demo_env req demo_configure_resp in
  provider.N8nCloudProvider.DataSourceData demo_configure_resp = None /\
  provider.N8nCloudProvider.ResourceData demo_configure_resp = None /\
  fst (provider.UserResource.Configure None
         {| provider.ProviderData :=
              provider.AnyClient <$> provider.N8nCloudProvider.ResourceData out |} [])
  = fst (provider.UserDataSource.Configure None
           {| provider.ProviderData :=
                provider.AnyClient <$> provider.N8nCloudProvider.DataSourceData out |} []).
Proof.
  cbv zeta. split; [reflexivity|]. split; [reflexivity|].
  destruct (Configure_installs_provider_client demo_env
              {| provider.N8nCloudProvider.Config := got demo_provider_config |}
              demo_configure_resp None []) as (_ & _ & _ & Hsame).
  exact (Hsame eq_refl eq_refl).
Defined.

Lemma precheck_implies_Configure_succeeds_witness :
  let out := provider.N8nCloudProvider.Configure demo_acc_env
               {| provider.N8nCloudProvider.Config := got empty_provider_config |}
               demo_configure_resp in
  provider_test.testAccPreCheck demo_acc_env = None /\
  HasError (provider.N8nCloudProvider.cfg_Diagnostics demo_configure_resp) = false /\
  HasError (provider.N8nCloudProvider.cfg_Diagnostics out) = false /\
  exists cl,
    provider.N8nCloudProvider.DataSourceData out = Some cl /\
    client.apiKey cl = "env-key".
Proof.
  cbv zeta. split; [reflexivity|]. split; [reflexivity|].
  destruct (precheck_implies_Configure_succeeds demo_acc_env demo_configure_resp)
    as [_ Hok].
  destruct (Hok eq_refl eq_refl) as (Hnone & cl & Hd & _ & _ & Hkey & _).
  split; [exact Hnone|]. exists cl. split; [exact Hd|exact Hkey].
Defined.

(** A configured time-out of 2^55 seconds wraps to zero nanoseconds,
    which [NewClient] replaces by its default of 30 seconds. *)
Example Configure_timeout_wraps_example :
  let data := {| provider.N8nCloudProvider.APIKey := types.StringValue "cfg-key";
                 provider.N8nCloudProvider.InstanceURL := types.StringNull;
                 provider.N8nCloudProvider.Timeout :=
                   types.Int64Value 36028797018963968 |} in
  let out := provider.N8nCloudProvider.Configure demo_env
               {| provider.N8nCloudProvider.Config := got data |}
               demo_configure_resp in
  (client.http_Timeout ∘ client.httpClient)
    <$> provider.N8nCloudProvider.DataSourceData out = Some 30000000000.
Proof. reflexivity. Qed.
